(** * osx_pkg_installer: a shallow embedding of the reconciliation engine

    The module under study is
    [lib/ansible/modules/packaging/os/osx_pkg_installer.py].  Pure helpers
    ([parse_out], [parse_pkg_info], [parse_package_files], the set difference
    of [find_new_packages]) are Rocq functions on strings and lists; the
    functions that talk to the host ([run_command], [pkg_info], [uninstall],
    [run_module], ...) live in a state-and-exception monad whose state holds
    the two dictionaries the Python code threads through every call
    ([result] and [verbose_result]) and the history of everything the run has
    asked of the host so far. *)

From Stdlib Require Import ZArith Ascii String.
From stdpp Require Import base option list strings pretty gmap.

Local Open Scope Z_scope.

(** ** Python values that end up in exception arguments *)

Inductive PyVal :=
| VStr (s : string)
| VInt (z : Z).

(** ** Python string primitives used by the module *)

Module Py.

Definition newline : ascii := "010"%char.
Definition slash : ascii := "/"%char.

(** [s.startswith(p)] *)
Fixpoint startswith (p s : string) : bool :=
  match p, s with
  | EmptyString, _ => true
  | String a p', String b s' => if Ascii.eqb a b then startswith p' s' else false
  | String _ _, EmptyString => false
  end.

(** [s.endswith(c)] for a one-character [c] *)
Fixpoint endswith_char (c : ascii) (s : string) : bool :=
  match s with
  | EmptyString => false
  | String a EmptyString => Ascii.eqb a c
  | String _ s' => endswith_char c s'
  end.

(** [s[n:]] *)
Fixpoint drop (n : nat) (s : string) : string :=
  match n, s with
  | O, _ => s
  | S n', String _ s' => drop n' s'
  | S _, EmptyString => EmptyString
  end.

(** [s.split(sep)] for a one-character separator: never the empty list,
    [''.split(sep) == ['']]. *)
Fixpoint split (sep : ascii) (s : string) : list string :=
  match s with
  | EmptyString => [EmptyString]
  | String c s' =>
      if Ascii.eqb c sep then EmptyString :: split sep s'
      else match split sep s' with
           | [] => [String c EmptyString]
           | l :: ls => String c l :: ls
           end
  end.

(** Python's whitespace as [str.strip()] and [int()] see it. *)
Definition is_space (c : ascii) : bool :=
  match c with
  | " "%char | "009"%char | "010"%char | "011"%char | "012"%char | "013"%char => true
  | _ => false
  end.

Fixpoint lstrip (s : string) : string :=
  match s with
  | EmptyString => EmptyString
  | String c s' => if is_space c then lstrip s' else s
  end.

Fixpoint rstrip (s : string) : string :=
  match s with
  | EmptyString => EmptyString
  | String c s' =>
      match rstrip s' with
      | EmptyString => if is_space c then EmptyString else String c EmptyString
      | r => String c r
      end
  end.

(** [s.strip()] *)
Definition strip (s : string) : string := rstrip (lstrip s).

Definition digit_val (c : ascii) : option Z :=
  let n := Z.of_nat (nat_of_ascii c) in
  if (48 <=? n) && (n <=? 57) then Some (n - 48) else None.

Fixpoint digits_go (acc : Z) (s : string) : option Z :=
  match s with
  | EmptyString => Some acc
  | String c s' =>
      match digit_val c with
      | Some d => digits_go (10 * acc + d) s'
      | None => None
      end
  end.

Definition digits (s : string) : option Z :=
  match s with
  | EmptyString => None
  | _ => digits_go 0 s
  end.

(** [int(s)] on a string: surrounding whitespace is ignored, one optional
    sign, then at least one decimal digit; [None] stands for [ValueError].
    The digit-group underscores that later interpreters accept are left
    out. *)
Definition int (s : string) : option Z :=
  match strip s with
  | String "-"%char d => Z.opp <$> digits d
  | String "+"%char d => digits d
  | d => digits d
  end.

(** [sep.join(l)] *)
Fixpoint join (sep : string) (l : list string) : string :=
  match l with
  | [] => EmptyString
  | [x] => x
  | x :: l' => x +:+ sep +:+ join sep l'
  end.

End Py.

(** ** [os.path] on a POSIX host *)

Module OsPath.

(** One step of [posixpath.join]: an absolute component replaces what came
    before it; otherwise it is appended, with a separator unless the path so
    far is empty or already ends in one. *)
Definition join2 (path b : string) : string :=
  if Py.startswith "/" b then b
  else if bool_decide (path = "") || Py.endswith_char Py.slash path then path +:+ b
  else path +:+ "/" +:+ b.

(** [os.path.join(a, *p)] *)
Definition join (a : string) (p : list string) : string := fold_left join2 p a.

End OsPath.

(** ** Exceptions *)

(** The exceptions the module can see.  [PkgException] is the module's own
    class and keeps its argument tuple.  [ValueError] is what [int()] raises;
    the interpreter's message is not spelled out, the offending literal is
    kept instead.  [KeyError] is a failed dictionary lookup.  [HostError]
    stands for whatever the host raises from a file deletion or from
    [AnsibleModule.run_command]. *)
Inductive Exn :=
| PkgException (args : list PyVal)
| ValueError (literal : string)
| KeyError (key : string)
| HostError (args : list PyVal).

(** ** The transcript parser *)

(** [parse_out] builds its pattern as: the wildcard class of all characters
    (whitespace or not) under a star, then [key], then a colon and a space,
    then one capturing group holding a dot under a star; it applies the
    pattern with [re.match].  The embedding covers a [key] that holds no
    regular-expression metacharacter ([key_is_literal]), so that the [key]
    part of the pattern matches the text of [key] and nothing else.

    [dot_star] is the greedy group: the longest run of characters other than
    a newline.  Nothing follows the group in the pattern, so the longest run
    is the one the matcher keeps. *)
Fixpoint dot_star (s : string) : string :=
  match s with
  | EmptyString => EmptyString
  | String c s' => if Ascii.eqb c Py.newline then EmptyString else String c (dot_star s')
  end.

(** The pattern after the wildcard, tried at the start of [s]: the literal
    [key ++ ": "] and then the group. *)
Definition re_key_group (key s : string) : option string :=
  if Py.startswith (key +:+ ": ") s
  then Some (dot_star (Py.drop (String.length (key +:+ ": ")) s))
  else None.

(** The greedy wildcard star in front of a continuation [rest]: the wildcard
    first takes one more character and goes on; only when everything
    further right has failed does the matcher back off and try [rest] at the
    current position. *)
Fixpoint re_any_star (rest : string -> option string) (s : string) : option string :=
  match s with
  | EmptyString => rest EmptyString
  | String c s' =>
      match re_any_star rest s' with
      | Some g => Some g
      | None => rest s
      end
  end.

Definition re_special (c : ascii) : bool :=
  match c with
  | "."%char | "^"%char | "$"%char | "*"%char | "+"%char | "?"%char
  | "{"%char | "}"%char | "["%char | "]"%char | "\"%char | "|"%char
  | "("%char | ")"%char => true
  | _ => false
  end.

Fixpoint key_is_literal (key : string) : bool :=
  match key with
  | EmptyString => true
  | String c k => negb (re_special c) && key_is_literal k
  end.

Definition parse_out (key std_out : string) : Exn + string :=
  match re_any_star (re_key_group key) std_out with
  | Some g => inr g
  | None => inl (PkgException [VStr "Key not found in output."; VStr key; VStr std_out])
  end.

(** ** The file manifest *)

(** The loop of [parse_package_files]: one pass over the lines, appending the
    joined path of each line that is neither empty nor [Applications]. *)
Definition parse_package_files_step (root_dir : string) (files : list string)
    (path_tail : string) : list string :=
  if bool_decide (path_tail ≠ "") && bool_decide (path_tail ≠ "Applications")
  then files ++ [OsPath.join root_dir [path_tail]]
  else files.

Definition parse_package_files (root_dir std_out : string) : list string :=
  fold_left (parse_package_files_step root_dir) (Py.split Py.newline std_out) [].

(** ** The host *)

(** What the run does to the host, in order.  A command is recorded when it
    is handed to [AnsibleModule.run_command], whatever comes of it. *)
Inductive Event :=
| EvCommand (argv : list string) (check_rc : bool)
| EvClock
| EvRmtree (path : string)
| EvRemove (path : string).

(** What a call of [AnsibleModule.run_command] can come to. *)
Inductive CmdResult :=
| Returned (rc : Z) (out err : string)
| Raised (e : Exn)
| Exited.

(** Everything outside the module is a parameter: each answer of the host is
    a function of what the run has done to it so far.

    [ansible_run_command] is [AnsibleModule.run_command], which is not part
    of the module.  Section 4.1 of the specification says of [check_rc] that
    a non-zero exit is then fatal for the caller; whether the framework
    raises or ends the process is left to the host ([Raised], [Exited]), and
    nothing below depends on which.

    [utcnow] is [datetime.datetime.utcnow().isoformat()]; [rmtree] and
    [remove] answer [None] when the deletion went through and the exception
    otherwise; [fromtimestamp] is the local-time rendering of
    [datetime.datetime.fromtimestamp]. *)
Record Host := {
  ansible_run_command : list Event -> list string -> bool -> CmdResult;
  utcnow : list Event -> string;
  path_exists : list Event -> string -> bool;
  path_isdir : list Event -> string -> bool;
  path_isfile : list Event -> string -> bool;
  realpath : list Event -> string -> string;
  rmtree : list Event -> string -> option Exn;
  remove : list Event -> string -> option Exn;
  fromtimestamp : Z -> Exn + string;
  geteuid : Z;
  expanduser_home : string;
}.

(** ** The two dictionaries *)

Record PkgRecord := {
  package_id : string;
  version : string;
  volume : string;
  location : string;
  root_dir : string;
  install_timestamp : Z;
  install_datetime : string;
}.

(** [result['pkg_info']]: the parsed record with [state='present'], or the
    dictionary that holds [state='absent'] and nothing else. *)
Inductive PkgInfo :=
| InfoPresent (r : PkgRecord)
| InfoAbsent.

Record CmdEntry := {
  command_list : list string;
  check_rc : bool;
  rc : Z;
  stdout : string;
  stderr : string;
}.

(** [result]; a key that is not in the dictionary is [None].  [r_error]
    keeps the exception whose [args] the handler stores under [error]. *)
Record Result := {
  changed : bool;
  message : string;
  r_pkg_info : option PkgInfo;
  r_pkg_files : option (list string);
  r_forget : option (Z * string * string);
  r_installed_packages : option (gmap string (list string));
  r_new_packages : option (list string);
  r_files : option (list string);
  r_error : option Exn;
}.

(** [verbose_result] *)
Record Verbose := {
  v_commands : option (gmap string CmdEntry);
  v_should_be_present : option bool;
  v_creates : option string;
  v_target : option string;
  v_volume : option string;
  v_all_packages : option (Z * string * string);
  v_original_package_list : option (list string);
  v_originally_present : option bool;
  v_files : option (list string);
  v_removal : option (list string);
  v_messages : option string;
}.

Definition set_changed (x : bool) (r : Result) : Result :=
  {| changed := x; message := message r; r_pkg_info := r_pkg_info r;
     r_pkg_files := r_pkg_files r; r_forget := r_forget r;
     r_installed_packages := r_installed_packages r;
     r_new_packages := r_new_packages r; r_files := r_files r;
     r_error := r_error r |}.

Definition set_pkg_info (x : PkgInfo) (r : Result) : Result :=
  {| changed := changed r; message := message r; r_pkg_info := Some x;
     r_pkg_files := r_pkg_files r; r_forget := r_forget r;
     r_installed_packages := r_installed_packages r;
     r_new_packages := r_new_packages r; r_files := r_files r;
     r_error := r_error r |}.

Definition set_pkg_files (x : list string) (r : Result) : Result :=
  {| changed := changed r; message := message r; r_pkg_info := r_pkg_info r;
     r_pkg_files := Some x; r_forget := r_forget r;
     r_installed_packages := r_installed_packages r;
     r_new_packages := r_new_packages r; r_files := r_files r;
     r_error := r_error r |}.

Definition set_forget (x : Z * string * string) (r : Result) : Result :=
  {| changed := changed r; message := message r; r_pkg_info := r_pkg_info r;
     r_pkg_files := r_pkg_files r; r_forget := Some x;
     r_installed_packages := r_installed_packages r;
     r_new_packages := r_new_packages r; r_files := r_files r;
     r_error := r_error r |}.

Definition set_installed_packages (x : gmap string (list string)) (r : Result) : Result :=
  {| changed := changed r; message := message r; r_pkg_info := r_pkg_info r;
     r_pkg_files := r_pkg_files r; r_forget := r_forget r;
     r_installed_packages := Some x;
     r_new_packages := r_new_packages r; r_files := r_files r;
     r_error := r_error r |}.

Definition set_new_packages (x : list string) (r : Result) : Result :=
  {| changed := changed r; message := message r; r_pkg_info := r_pkg_info r;
     r_pkg_files := r_pkg_files r; r_forget := r_forget r;
     r_installed_packages := r_installed_packages r;
     r_new_packages := Some x; r_files := r_files r;
     r_error := r_error r |}.

Definition set_files (x : list string) (r : Result) : Result :=
  {| changed := changed r; message := message r; r_pkg_info := r_pkg_info r;
     r_pkg_files := r_pkg_files r; r_forget := r_forget r;
     r_installed_packages := r_installed_packages r;
     r_new_packages := r_new_packages r; r_files := Some x;
     r_error := r_error r |}.

Definition set_error (x : Exn) (r : Result) : Result :=
  {| changed := changed r; message := message r; r_pkg_info := r_pkg_info r;
     r_pkg_files := r_pkg_files r; r_forget := r_forget r;
     r_installed_packages := r_installed_packages r;
     r_new_packages := r_new_packages r; r_files := r_files r;
     r_error := Some x |}.

Definition set_commands (x : gmap string CmdEntry) (v : Verbose) : Verbose :=
  {| v_commands := Some x; v_should_be_present := v_should_be_present v;
     v_creates := v_creates v; v_target := v_target v; v_volume := v_volume v;
     v_all_packages := v_all_packages v;
     v_original_package_list := v_original_package_list v;
     v_originally_present := v_originally_present v; v_files := v_files v;
     v_removal := v_removal v; v_messages := v_messages v |}.

Definition set_all_packages (x : Z * string * string) (v : Verbose) : Verbose :=
  {| v_commands := v_commands v; v_should_be_present := v_should_be_present v;
     v_creates := v_creates v; v_target := v_target v; v_volume := v_volume v;
     v_all_packages := Some x;
     v_original_package_list := v_original_package_list v;
     v_originally_present := v_originally_present v; v_files := v_files v;
     v_removal := v_removal v; v_messages := v_messages v |}.

Definition set_original_package_list (x : list string) (v : Verbose) : Verbose :=
  {| v_commands := v_commands v; v_should_be_present := v_should_be_present v;
     v_creates := v_creates v; v_target := v_target v; v_volume := v_volume v;
     v_all_packages := v_all_packages v;
     v_original_package_list := Some x;
     v_originally_present := v_originally_present v; v_files := v_files v;
     v_removal := v_removal v; v_messages := v_messages v |}.

Definition set_originally_present (x : bool) (v : Verbose) : Verbose :=
  {| v_commands := v_commands v; v_should_be_present := v_should_be_present v;
     v_creates := v_creates v; v_target := v_target v; v_volume := v_volume v;
     v_all_packages := v_all_packages v;
     v_original_package_list := v_original_package_list v;
     v_originally_present := Some x; v_files := v_files v;
     v_removal := v_removal v; v_messages := v_messages v |}.

Definition set_verbose_files (x : list string) (v : Verbose) : Verbose :=
  {| v_commands := v_commands v; v_should_be_present := v_should_be_present v;
     v_creates := v_creates v; v_target := v_target v; v_volume := v_volume v;
     v_all_packages := v_all_packages v;
     v_original_package_list := v_original_package_list v;
     v_originally_present := v_originally_present v; v_files := Some x;
     v_removal := v_removal v; v_messages := v_messages v |}.

Definition set_removal (x : list string) (v : Verbose) : Verbose :=
  {| v_commands := v_commands v; v_should_be_present := v_should_be_present v;
     v_creates := v_creates v; v_target := v_target v; v_volume := v_volume v;
     v_all_packages := v_all_packages v;
     v_original_package_list := v_original_package_list v;
     v_originally_present := v_originally_present v; v_files := v_files v;
     v_removal := Some x; v_messages := v_messages v |}.

Definition set_messages (x : string) (v : Verbose) : Verbose :=
  {| v_commands := v_commands v; v_should_be_present := v_should_be_present v;
     v_creates := v_creates v; v_target := v_target v; v_volume := v_volume v;
     v_all_packages := v_all_packages v;
     v_original_package_list := v_original_package_list v;
     v_originally_present := v_originally_present v; v_files := v_files v;
     v_removal := v_removal v; v_messages := Some x |}.

(** ** The monad of the run *)

Record State := {
  result : Result;
  verbose : Verbose;
  history : list Event;
}.

(** What unwinds the stack: a Python exception, which the handler of
    [run_module] catches, or [SystemExit], which it does not. *)
Inductive Signal :=
| Exception (e : Exn)
| SystemExit.

Definition M (A : Type) : Type := State -> (Signal + A) * State.

Definition ret {A} (a : A) : M A := fun s => (inr a, s).

Definition bind {A B} (m : M A) (k : A -> M B) : M B :=
  fun s =>
    match m s with
    | (inr a, s') => k a s'
    | (inl sig, s') => (inl sig, s')
    end.

Definition raise {A} (e : Exn) : M A := fun s => (inl (Exception e), s).

Definition lift {A} (x : Exn + A) : M A :=
  match x with
  | inr a => ret a
  | inl e => raise e
  end.

Definition get_history : M (list Event) := fun s => (inr (history s), s).
Definition get_verbose : M Verbose := fun s => (inr (verbose s), s).
Definition get_result : M Result := fun s => (inr (result s), s).

Definition modify_result (f : Result -> Result) : M unit :=
  fun s => (inr tt, {| result := f (result s); verbose := verbose s; history := history s |}).

Definition modify_verbose (f : Verbose -> Verbose) : M unit :=
  fun s => (inr tt, {| result := result s; verbose := f (verbose s); history := history s |}).

Definition record_event (e : Event) (s : State) : State :=
  {| result := result s; verbose := verbose s; history := history s ++ [e] |}.

Declare Scope run_scope.
Delimit Scope run_scope with run.
Notation "x <- c1 ;; c2" := (bind c1 (fun x => c2))
  (at level 20, c1 at level 99, c2 at level 200) : run_scope.
Notation "' pat <- c1 ;; c2" := (bind c1 (fun x => match x with pat => c2 end))
  (at level 20, pat pattern, c1 at level 99, c2 at level 200) : run_scope.
Notation "c1 ;; c2" := (bind c1 (fun _ => c2))
  (at level 100, c2 at level 200, right associativity) : run_scope.

Fixpoint for_each {A} (body : A -> M unit) (l : list A) : M unit :=
  match l with
  | [] => ret tt
  | x :: l' => bind (body x) (fun _ => for_each body l')
  end.

(** ** The module's functions *)

Definition pkgutil : string := "/usr/sbin/pkgutil".
Definition installer : string := "/usr/sbin/installer".

Definition cmd_pkg_info (package_id volume : string) : list string :=
  [pkgutil; "--pkg-info"; package_id; "--volume"; volume].
Definition cmd_files (package_id volume : string) : list string :=
  [pkgutil; "--files"; package_id; "--volume"; volume].
Definition cmd_forget (package_id volume : string) : list string :=
  [pkgutil; "--forget"; package_id; "--volume"; volume].
Definition cmd_pkgs (volume : string) : list string :=
  [pkgutil; "--pkgs"; "--volume"; volume].
Definition cmd_install (pkg_path target : string) : list string :=
  [installer; "-pkg"; pkg_path; "-target"; target].

(** [list(set(new_package_list) - set(original_package_list))]: the two
    lists become sets, and the difference is listed in the order the set
    keeps its elements in. *)
Definition set_difference_list (new_package_list original_package_list : list string)
    : list string :=
  elements ((list_to_set new_package_list : gset string) ∖ list_to_set original_package_list).

Section Engine.

Variable h : Host.

Local Open Scope run_scope.

(** [gen_timestamp] *)
Definition gen_timestamp : M string :=
  fun s => (inr (utcnow h (history s)), record_event EvClock s).

(** [module.run_command(command_list, check_rc=check_rc)] *)
Definition module_run_command (command_list : list string) (check_rc : bool)
    : M (Z * string * string) :=
  fun s =>
    let s' := record_event (EvCommand command_list check_rc) s in
    match ansible_run_command h (history s) command_list check_rc with
    | Returned rc out err => (inr (rc, out, err), s')
    | Raised e => (inl (Exception e), s')
    | Exited => (inl SystemExit, s')
    end.

Definition run_command (command_list : list string) (check_rc : bool)
    : M (Z * string * string) :=
  '(rc, out, err) <- module_run_command command_list check_rc ;;
  v <- get_verbose ;;
  (if v_commands v is None then modify_verbose (set_commands ∅) else ret tt) ;;
  timestamp <- gen_timestamp ;;
  modify_verbose (fun v =>
    set_commands
      (<[timestamp := {| command_list := command_list; check_rc := check_rc;
                         rc := rc; stdout := out; stderr := err |}]>
         (default ∅ (v_commands v))) v) ;;
  ret (rc, out, err).

Definition parse_int (s : string) : Exn + Z :=
  match Py.int s with
  | Some z => inr z
  | None => inl (ValueError s)
  end.

(** [parse_pkg_info], in the order Python evaluates it: the three
    assignments, then the keyword arguments of [dict] from left to right.
    [hist] is what has happened on the host when [os.path.realpath] looks at
    the file system. *)
Definition parse_pkg_info (hist : list Event) (std_out : string) : Exn + PkgRecord :=
  match parse_out "install-time" std_out with inl e => inl e | inr t =>
  match parse_int t with inl e => inl e | inr install_timestamp =>
  match parse_out "volume" std_out with inl e => inl e | inr volume =>
  match parse_out "location" std_out with inl e => inl e | inr location =>
  match parse_out "package-id" std_out with inl e => inl e | inr package_id =>
  match parse_out "version" std_out with inl e => inl e | inr version =>
  let root_dir := realpath h hist (volume +:+ "/" +:+ location) in
  match fromtimestamp h install_timestamp with inl e => inl e | inr install_datetime =>
  inr {| package_id := package_id; version := version; volume := volume;
         location := location; root_dir := root_dir;
         install_timestamp := install_timestamp;
         install_datetime := install_datetime |}
  end end end end end end end.

Definition pkg_info (package_id volume : string) : M PkgInfo :=
  '(rc, out, err) <- run_command (cmd_pkg_info package_id volume) false ;;
  if bool_decide (rc = 0) then
    hist <- get_history ;;
    info <- lift (parse_pkg_info hist out) ;;
    modify_result (set_pkg_info (InfoPresent info)) ;;
    ret (InfoPresent info)
  else
    modify_result (set_pkg_info InfoAbsent) ;;
    ret InfoAbsent.

(** [info['root_dir']] *)
Definition info_root_dir (info : PkgInfo) : Exn + string :=
  match info with
  | InfoPresent r => inr (root_dir r)
  | InfoAbsent => inl (KeyError "root_dir")
  end.

Definition package_files (package_id volume : string) : M (list string) :=
  info <- pkg_info package_id volume ;;
  '(rc, out, err) <- run_command (cmd_files package_id volume) true ;;
  root <- lift (info_root_dir info) ;;
  let files := parse_package_files root out in
  modify_result (set_pkg_files files) ;;
  ret files.

Definition forget_package (package_id volume : string) : M (Z * string * string) :=
  '(rc, out, err) <- run_command (cmd_forget package_id volume) true ;;
  modify_result (set_forget (rc, out, err)) ;;
  ret (rc, out, err).

Definition is_present (creates : string) (package_id : option string) (volume : string)
    : M bool :=
  match package_id with
  | Some package_id =>
      info <- pkg_info package_id volume ;;
      ret (if info is InfoPresent _ then true else false)
  | None =>
      hist <- get_history ;;
      ret (path_exists h hist creates)
  end.

Definition install (pkg_path target : string) : M unit :=
  hist <- get_history ;;
  let real_pkg_path := realpath h hist pkg_path in
  (if negb (path_isfile h hist real_pkg_path)
   then raise (PkgException [VStr ("pkg file not found at " +:+ real_pkg_path)])
   else ret tt) ;;
  _ <- run_command (cmd_install pkg_path target) true ;;
  ret tt.

(** [shutil.rmtree] and [os.remove] *)
Definition shutil_rmtree (path : string) : M unit :=
  fun s =>
    let s' := record_event (EvRmtree path) s in
    match rmtree h (history s) path with
    | None => (inr tt, s')
    | Some e => (inl (Exception e), s')
    end.

Definition os_remove (path : string) : M unit :=
  fun s =>
    let s' := record_event (EvRemove path) s in
    match remove h (history s) path with
    | None => (inr tt, s')
    | Some e => (inl (Exception e), s')
    end.

Definition log_removal (line : string) : M unit :=
  modify_verbose (fun v => set_removal (default [] (v_removal v) ++ [line]) v).

(** The body of the loop of [uninstall]. *)
Definition remove_path (file_path : string) : M unit :=
  hist <- get_history ;;
  if path_isdir h hist file_path then
    log_removal ("Removing directory: " +:+ file_path) ;;
    shutil_rmtree file_path
  else if path_isfile h hist file_path then
    log_removal ("Removing file: " +:+ file_path) ;;
    os_remove file_path
  else ret tt.

Definition uninstall (package_id volume : string) : M unit :=
  files <- package_files package_id volume ;;
  modify_verbose (set_verbose_files files) ;;
  modify_verbose (set_removal []) ;;
  for_each remove_path files ;;
  _ <- forget_package package_id volume ;;
  ret tt.

(** [list_all_packages] calls [module.run_command] itself, with the
    framework's own default for [check_rc], which is off. *)
Definition list_all_packages (volume : string) : M (list string) :=
  '(rc, out, err) <- module_run_command (cmd_pkgs volume) false ;;
  modify_verbose (set_all_packages (rc, out, err)) ;;
  (if negb (bool_decide (rc = 0))
   then raise (PkgException [VStr "installer failed"; VInt rc; VStr out; VStr err])
   else ret tt) ;;
  r <- get_result ;;
  (if r_installed_packages r is None then modify_result (set_installed_packages ∅)
   else ret tt) ;;
  let package_list := Py.split Py.newline (Py.strip out) in
  timestamp <- gen_timestamp ;;
  modify_result (fun r =>
    set_installed_packages
      (<[timestamp := package_list]> (default ∅ (r_installed_packages r))) r) ;;
  ret package_list.

Definition find_new_packages (volume : string) (original_package_list : list string)
    : M (list string) :=
  new_package_list <- list_all_packages volume ;;
  let new_packages := set_difference_list new_package_list original_package_list in
  modify_result (set_new_packages new_packages) ;;
  ret new_packages.

End Engine.

(** ** [run_module] *)

(** What the caller hands to the module: each option is there or left out. *)
Record Args := {
  a_app_name : option string;
  a_pkg_path : option string;
  a_creates : option string;
  a_state : option string;
  a_target : option string;
  a_package_id : option string;
  a_confident_to_remove : option bool;
}.

Inductive DesiredState := Present | Absent.

(** [module.params], with [module.check_mode] and [module._verbosity]. *)
Record Params := {
  app_name : string;
  pkg_path : option string;
  creates : option string;
  state : DesiredState;
  target : option string;
  p_package_id : option string;
  confident_to_remove : bool;
  check_mode : bool;
  verbosity : Z;
}.

(** The defaults [module_args] declares: [default=''] for [pkg_path],
    ['present'] for [state], [False] for [confident_to_remove]; the other
    entries declare none. *)
Definition default_pkg_path : option string := Some "".
Definition default_state : DesiredState := Present.
Definition default_confident_to_remove : bool := false.

(** Modelled from the spec: [AnsibleModule], the framework's argument binding,
    is not among the sources.  By section 6 of the specification [app_name]
    is required and [state] is one of [present] and [absent]; an option the
    caller leaves out takes the default that its entry of [module_args]
    declares, and is [None] when the entry declares none.  [None] as a whole
    is the framework refusing the arguments. *)
Definition ansible_module (a : Args) (check_mode : bool) (verbosity : Z) : option Params :=
  match a_app_name a with
  | None => None
  | Some app_name =>
      let bound state :=
        Some {| app_name := app_name;
                pkg_path := if a_pkg_path a is Some x then Some x else default_pkg_path;
                creates := a_creates a;
                state := state;
                target := a_target a;
                p_package_id := a_package_id a;
                confident_to_remove :=
                  default default_confident_to_remove (a_confident_to_remove a);
                check_mode := check_mode;
                verbosity := verbosity |} in
      match a_state a with
      | None => bound default_state
      | Some st =>
          if bool_decide (st = "present") then bound Present
          else if bool_decide (st = "absent") then bound Absent
          else None
      end
  end.

(** What the run hands back: [exit_json] or [fail_json] with the keyword
    arguments it was given, or nothing of the module's own when the process
    ended elsewhere.  [rep_verbose] is [verbose_result] when
    [result.update(verbose_result)] ran.  The two dictionaries share one key,
    [files], and [report_files] reads it as the merged dictionary has it. *)
Record Report := {
  rep_result : Result;
  rep_verbose : option Verbose;
}.

Definition report_files (rep : Report) : option (list string) :=
  match rep_verbose rep with
  | Some v => if v_files v is Some f then Some f else r_files (rep_result rep)
  | None => r_files (rep_result rep)
  end.

Inductive Outcome :=
| ExitJson (rep : Report)
| FailJson (e : Exn) (rep : Report)
| Aborted.

(** [str(x)] for a string or [None] under [%s]. *)
Definition str_of_option (x : option string) : string := default "None" x.

Section Run.

Variable h : Host.
Variable p : Params.

Local Open Scope run_scope.

Definition is_root : bool := bool_decide (geteuid h = 0).
Definition should_be_present : bool := if state p is Present then true else false.

Definition run_volume : string := if is_root then "/" else expanduser_home h.

Definition run_target : string :=
  match target p with
  | Some t => t
  | None => if is_root then "/" else "CurrentUserHomeDirectory"
  end.

Definition run_creates : string :=
  match creates p with
  | Some c => c
  | None => OsPath.join run_volume ["Applications"; app_name p +:+ ".app"]
  end.

Definition initial_messages : list string :=
  if is_root then ["Running as root"] else ["Running as unprivileged user"].

(** The two dictionaries when the [try] block is entered. *)
Definition initial_state : State :=
  {| result := {| changed := false; message := ""; r_pkg_info := None;
                  r_pkg_files := None; r_forget := None;
                  r_installed_packages := None; r_new_packages := None;
                  r_files := None; r_error := None |};
     verbose := {| v_commands := None;
                   v_should_be_present := Some should_be_present;
                   v_creates := Some run_creates; v_target := Some run_target;
                   v_volume := Some run_volume; v_all_packages := None;
                   v_original_package_list := None; v_originally_present := None;
                   v_files := None; v_removal := None; v_messages := None |};
     history := [] |}.

(** The first half of the [try] block: the two guards, the package list,
    the presence probe and the [changed] flag. *)
Definition probe_phase : M bool :=
  (if state p is Present then
     if pkg_path p is None
     then raise (PkgException [VStr "Missing pkg_path when state is present"])
     else ret tt
   else ret tt) ;;
  (if state p is Absent then
     if p_package_id p is None
     then raise (PkgException [VStr "Missing package_id when state is absent"])
     else ret tt
   else ret tt) ;;
  original_package_list <- list_all_packages h run_volume ;;
  modify_verbose (set_original_package_list original_package_list) ;;
  originally_present <- is_present h run_creates (p_package_id p) run_volume ;;
  modify_verbose (set_originally_present originally_present) ;;
  modify_result (set_changed (xorb originally_present should_be_present)) ;;
  ret originally_present.

(** A parameter the guards have checked is used as a string; the framework
    would raise on [None]. *)
Definition required (name : string) (x : option string) : M string :=
  match x with
  | Some v => ret v
  | None => raise (HostError [VStr name])
  end.

(** The second half: the check-mode gate and the action.  The value is the
    list [messages]. *)
Definition action_phase (messages : list string) (originally_present : bool)
    : M (list string) :=
  if check_mode p then
    ret (messages ++ ["Checking for " +:+ app_name p +:+ " for pkg at "
                        +:+ str_of_option (pkg_path p)])
  else
    let messages := messages ++ ["Running for " +:+ app_name p +:+ " for pkg at "
                                   +:+ str_of_option (pkg_path p)] in
    if should_be_present then
      (if negb originally_present then
         pkg_path <- required "pkg_path" (pkg_path p) ;;
         install h pkg_path run_target
       else ret tt) ;;
      ret messages
    else
      (if originally_present then
         package_id <- required "package_id" (p_package_id p) ;;
         files <- package_files h package_id run_volume ;;
         modify_verbose (set_verbose_files files) ;;
         if confident_to_remove p then
           uninstall h package_id run_volume
         else
           modify_result (set_files files) ;;
           raise (PkgException [VStr "Not confident_to_remove this package";
                                VStr "Review the files and become confident to continue"])
       else ret tt) ;;
      ret messages.

Definition try_block : M unit :=
  originally_present <- probe_phase ;;
  messages <- action_phase initial_messages originally_present ;;
  modify_verbose (set_messages (Py.join ". " messages)).

(** [result.update(verbose_result)] under [module._verbosity > 0], then the
    keyword arguments of [exit_json] or [fail_json]. *)
Definition report (s : State) : Report :=
  {| rep_result := result s;
     rep_verbose := if bool_decide (0 < verbosity p) then Some (verbose s) else None |}.

(** What follows the [try] block: [exit_json] when it ran to its end, the
    handler and [fail_json] when an exception came out of it. *)
Definition conclude (r : (Signal + unit) * State) : Outcome * list Event :=
  match r with
  | (inr _, s) => (ExitJson (report s), history s)
  | (inl (Exception e), s) =>
      let s' := {| result := set_error e (result s); verbose := verbose s;
                   history := history s |} in
      (FailJson e (report s'), history s')
  | (inl SystemExit, s) => (Aborted, history s)
  end.

Definition run_bound : Outcome * list Event := conclude (try_block initial_state).

End Run.

(** The run as the caller sees it: the outcome, and what was done to the
    host. *)
Definition run_module (h : Host) (a : Args) (check_mode : bool) (verbosity : Z)
    : Outcome * list Event :=
  match ansible_module a check_mode verbosity with
  | Some p => run_bound h p
  | None => (Aborted, [])
  end.

(** ** Events by kind *)

(** The three actions of the engine: applying a package image, forgetting a
    receipt, deleting a path. *)
Definition is_install (e : Event) : bool :=
  match e with
  | EvCommand (tool :: _) _ => bool_decide (tool = installer)
  | _ => false
  end.

Definition is_forget (e : Event) : bool :=
  match e with
  | EvCommand [tool; flag; _; _; _] _ =>
      bool_decide (tool = pkgutil) && bool_decide (flag = "--forget")
  | _ => false
  end.

Definition is_deletion (e : Event) : bool :=
  match e with
  | EvRmtree _ | EvRemove _ => true
  | _ => false
  end.

Definition is_action (e : Event) : bool := is_install e || is_forget e || is_deletion e.

(** The list-all command and the info query of the presence probe, with the
    clock readings that stamp them. *)
Definition is_probe (volume : string) (package_id : option string) (e : Event) : Prop :=
  e = EvClock \/ e = EvCommand (cmd_pkgs volume) false \/
  exists id, package_id = Some id /\ e = EvCommand (cmd_pkg_info id volume) false.

(** The report the module itself hands back, if it does. *)
Definition emitted (o : Outcome) : option Report :=
  match o with
  | ExitJson rep | FailJson _ rep => Some rep
  | Aborted => None
  end.

(** ** Notions the statements use *)

Definition no_newline (v : string) : Prop :=
  forall a b, v <> a +:+ String Py.newline b.

Definition line_ends (post : string) : Prop :=
  post = "" \/ exists t, post = String Py.newline t.

Definition key_not_found (key std_out : string) : Exn :=
  PkgException [VStr "Key not found in output."; VStr key; VStr std_out].

Definition not_confident : Exn :=
  PkgException [VStr "Not confident_to_remove this package";
                VStr "Review the files and become confident to continue"].

(** The forget-receipt command as [forget_package] issues it. *)
Definition forget_event (package_id volume : string) : Event :=
  EvCommand (cmd_forget package_id volume) true.

(** [attempted h hist files evs]: starting on a host that has seen [hist],
    every entry of [files] had its turn, in order; [evs] are the deletions
    this made.  An entry that is a directory at its turn is removed as a
    tree, one that is a file is removed as a file, and both deletions went
    through; an entry that is neither leaves no event. *)
Inductive attempted (h : Host) : list Event -> list string -> list Event -> Prop :=
| attempted_nil hist :
    attempted h hist [] []
| attempted_dir hist f files evs :
    path_isdir h hist f = true ->
    rmtree h hist f = None ->
    attempted h (hist ++ [EvRmtree f]) files evs ->
    attempted h hist (f :: files) (EvRmtree f :: evs)
| attempted_file hist f files evs :
    path_isdir h hist f = false ->
    path_isfile h hist f = true ->
    remove h hist f = None ->
    attempted h (hist ++ [EvRemove f]) files evs ->
    attempted h hist (f :: files) (EvRemove f :: evs)
| attempted_skip hist f files evs :
    path_isdir h hist f = false ->
    path_isfile h hist f = false ->
    attempted h hist files evs ->
    attempted h hist (f :: files) evs.

(** An event that is none of the three actions. *)
Definition quiet (e : Event) : Prop := is_action e = false.

(** No constraint on the events. *)
Definition any_event (e : Event) : Prop := True.

(** [step P s s']: from [s] to [s'] the [changed] flag stayed what it was,
    and the host saw a sequence of events that all satisfy [P]. *)
Definition step (P : Event -> Prop) (s s' : State) : Prop :=
  changed (result s') = changed (result s) /\
  exists evs, history s' = history s ++ evs /\ Forall P evs.

Definition preserves {A} (R : State -> State -> Prop) (m : M A) : Prop :=
  forall s, R s (m s).2.

(** [verbose_result['commands']], empty while the key is not there. *)
Definition audit_trail (s : State) : gmap string CmdEntry :=
  default ∅ (v_commands (verbose s)).

(** The two [Params] of one call, in and out of check mode. *)
Definition with_check_mode (c : bool) (p : Params) : Params :=
  {| app_name := app_name p; pkg_path := pkg_path p; creates := creates p;
     state := state p; target := target p; p_package_id := p_package_id p;
     confident_to_remove := confident_to_remove p; check_mode := c;
     verbosity := verbosity p |}.

(** The state in which the run calls [uninstall]: the manifest has just been
    stored under [files] of [verbose_result]. *)
Definition with_files (files : list string) (s : State) : State :=
  {| result := result s; verbose := set_verbose_files files (verbose s);
     history := history s |}.

(** A deletion of one of [files]. *)
Definition deletes_one_of (files : list string) (e : Event) : Prop :=
  exists f, f ∈ files /\ (e = EvRmtree f \/ e = EvRemove f).

Definition missing_package_id : Exn :=
  PkgException [VStr "Missing package_id when state is absent"].

Definition pkg_file_not_found (real_pkg_path : string) : Exn :=
  PkgException [VStr ("pkg file not found at " +:+ real_pkg_path)].

(** The outcome without what [result.update(verbose_result)] added. *)
Definition without_detail (o : Outcome) : Outcome :=
  match o with
  | ExitJson rep => ExitJson {| rep_result := rep_result rep; rep_verbose := None |}
  | FailJson e rep => FailJson e {| rep_result := rep_result rep; rep_verbose := None |}
  | Aborted => Aborted
  end.

Definition with_verbosity (v : Z) (p : Params) : Params :=
  {| app_name := app_name p; pkg_path := pkg_path p; creates := creates p;
     state := state p; target := target p; p_package_id := p_package_id p;
     confident_to_remove := confident_to_remove p; check_mode := check_mode p;
     verbosity := v |}.

(** [result['installed_packages']], empty while the key is not there. *)
Definition snapshots (s : State) : gmap string (list string) :=
  default ∅ (r_installed_packages (result s)).

(** The keys [parse_pkg_info] looks up, in the order it does. *)
Definition pkg_info_keys : list string :=
  ["install-time"; "volume"; "location"; "package-id"; "version"].

(** The text [key: ] occurs nowhere in the transcript. *)
Definition key_missing (key std_out : string) : Prop :=
  forall pre post, std_out <> pre +:+ key +:+ ": " +:+ post.

Definition entry_of (argv : list string) (c : bool) (r : Z * string * string) : CmdEntry :=
  {| command_list := argv; check_rc := c; rc := r.1.1; stdout := r.1.2; stderr := r.2 |}.

(** The keys of the two dictionaries that only [run_module] itself writes,
    or nothing does: [message], [new_packages] and [error] of [result],
    [messages] of [verbose_result]. *)
Definition outer_keys (s : State)
    : string * option (list string) * option Exn * option string :=
  (message (result s), r_new_packages (result s), r_error (result s),
   v_messages (verbose s)).

Definition untouched (s s' : State) : Prop := outer_keys s' = outer_keys s.

(** The second line of [messages]. *)
Definition mode_line (p : Params) : string :=
  (if check_mode p then "Checking for " else "Running for ")
    +:+ app_name p +:+ " for pkg at " +:+ str_of_option (pkg_path p).

(** The line [uninstall] appends to [verbose_result['removal']] before a
    deletion. *)
Definition removal_line (e : Event) : option string :=
  match e with
  | EvRmtree f => Some ("Removing directory: " +:+ f)
  | EvRemove f => Some ("Removing file: " +:+ f)
  | _ => None
  end.

Definition listing_failed (rc : Z) (out err : string) : Exn :=
  PkgException [VStr "installer failed"; VInt rc; VStr out; VStr err].

(** ** Concrete hosts

    Small hosts to run the module on.  They follow the transcripts of the
    unit tests ([JDK_PKG_INFO], [ORIGINAL_PKGS], the listing of
    [test_package_files]). *)

Module Hosts.

(** [os.path.realpath] where no component is a symbolic link: empty and [.]
    components go, [..] drops the component before it, and a relative path
    starts at [cwd]. *)
Definition norm_step (acc : list string) (c : string) : list string :=
  if bool_decide (c = "") || bool_decide (c = ".") then acc
  else if bool_decide (c = "..") then removelast acc
  else acc ++ [c].

Definition realpath_nolinks (cwd path : string) : string :=
  let full := if Py.startswith "/" path then path else cwd +:+ "/" +:+ path in
  "/" +:+ Py.join "/" (fold_left norm_step (Py.split Py.slash full) []).

Definition JDK_ID : string := "com.oracle.jdk-9.0.4".

Definition JDK_PKG_INFO : string := "
package-id: com.oracle.jdk-9.0.4
version: 1.1
volume: /
location: Library/Java/JavaVirtualMachines/jdk-9.0.4.jdk
install-time: 1520292242
".

Definition ORIGINAL_PKGS : string := "
com.apple.pkg.CLTools_Executables
net.pulsesecure.TnccPlugin.pkg
com.oracle.jdk8u152
".

Definition JDK_FILES : string := "settings.plist
Contents/Home/lib/modules
Contents/Home/lib/modules/java.base
Contents/Home/lib/security/public_suffix_list.dat
".

Definition JDK_ROOT : string := "/Library/Java/JavaVirtualMachines/jdk-9.0.4.jdk".

(** Has [path] been deleted: by name, or with a directory above it. *)
Definition deleted (hist : list Event) (path : string) : bool :=
  existsb (fun e =>
    match e with
    | EvRemove q => bool_decide (q = path)
    | EvRmtree q => bool_decide (q = path) || Py.startswith (q +:+ "/") path
    | _ => false
    end) hist.

Definition jdk_dirs : list string := [JDK_ROOT +:+ "/Contents/Home/lib/modules"].
Definition jdk_files : list string :=
  [JDK_ROOT +:+ "/settings.plist";
   JDK_ROOT +:+ "/Contents/Home/lib/modules/java.base";
   JDK_ROOT +:+ "/Contents/Home/lib/security/public_suffix_list.dat";
   "/Downloads/jdk.pkg"].

(** The receipt of the JDK is on the host when [installed] says so or an
    install went through, until a forget. *)
Definition jdk_receipt (installed : bool) (hist : list Event) : bool :=
  (installed || existsb is_install hist) && negb (existsb is_forget hist).

(** A host run as root; the clock shows how many things have happened. *)
Definition jdk_host (installed : bool) : Host :=
  {| ansible_run_command hist argv check_rc :=
       match argv with
       | [_; flag; _; _] =>
           if bool_decide (flag = "--pkgs") then Returned 0 ORIGINAL_PKGS ""
           else Returned 64 "" "usage"
       | [tool; flag; package_id; _; _] =>
           if bool_decide (tool = installer) then
             Returned 0 "installer: The install was successful." ""
           else if bool_decide (package_id = JDK_ID) && jdk_receipt installed hist then
             if bool_decide (flag = "--pkg-info") then Returned 0 JDK_PKG_INFO ""
             else if bool_decide (flag = "--files") then Returned 0 JDK_FILES ""
             else if bool_decide (flag = "--forget") then Returned 0 "Forgot package" ""
             else Returned 64 "" "usage"
           else if check_rc then Exited
           else Returned 1 "" "No receipt found"
       | _ => Returned 64 "" "usage"
       end;
     utcnow hist := "T" +:+ pretty (length hist);
     path_exists hist path :=
       (bool_decide (path ∈ jdk_dirs ++ jdk_files) || bool_decide (path = "/Users"))
       && negb (deleted hist path);
     path_isdir hist path := bool_decide (path ∈ jdk_dirs) && negb (deleted hist path);
     path_isfile hist path := bool_decide (path ∈ jdk_files) && negb (deleted hist path);
     realpath _ path := realpath_nolinks "/" path;
     rmtree _ _ := None;
     remove _ _ := None;
     fromtimestamp t := inr ("local:" +:+ pretty t);
     geteuid := 0;
     expanduser_home := "/var/root" |}.

Definition no_args : Args :=
  {| a_app_name := None; a_pkg_path := None; a_creates := None; a_state := None;
     a_target := None; a_package_id := None; a_confident_to_remove := None |}.

(** [app_name: JDK, package_id: com.oracle.jdk-9.0.4, state: absent] *)
Definition remove_jdk (confident : option bool) : Args :=
  {| a_app_name := Some "JDK"; a_pkg_path := None; a_creates := None;
     a_state := Some "absent"; a_target := None; a_package_id := Some JDK_ID;
     a_confident_to_remove := confident |}.

(** [app_name: JDK, pkg_path: /Downloads/jdk.pkg, package_id: ...] *)
Definition install_jdk : Args :=
  {| a_app_name := Some "JDK"; a_pkg_path := Some "/Downloads/jdk.pkg";
     a_creates := None; a_state := None; a_target := None;
     a_package_id := Some JDK_ID; a_confident_to_remove := None |}.

(** [app_name: JDK, state: present], with or without a package id, and no
    [pkg_path]. *)
Definition install_without_pkg_path (package_id : option string) : Args :=
  {| a_app_name := Some "JDK"; a_pkg_path := None; a_creates := Some "/Users";
     a_state := Some "present"; a_target := None; a_package_id := package_id;
     a_confident_to_remove := None |}.

(** A receipt whose [location] is an absolute path. *)
Definition DATA_PKG_INFO : string := "package-id: com.example.tool
version: 2.0
volume: /Volumes/Data
location: /Applications
install-time: 1520292242
".

(** The listing of the manifest-exclusion example: an empty line, the bare
    [Applications], and one file below it. *)
Definition APP_LISTING : string :=
  Py.join (String Py.newline "") [""; "Applications"; "Applications/App.app/x"].

(** The state in which a run for [install_jdk] enters its [try] block. *)
Definition jdk_params : Params :=
  {| app_name := "JDK"; pkg_path := Some "/Downloads/jdk.pkg"; creates := None;
     state := Present; target := None; p_package_id := Some JDK_ID;
     confident_to_remove := false; check_mode := false; verbosity := 0 |}.

Definition fresh_state : State := initial_state (jdk_host true) jdk_params.

(** [module.params] for [remove_jdk None]. *)
Definition remove_params (check_mode : bool) : Params :=
  {| app_name := "JDK"; pkg_path := Some ""; creates := None; state := Absent;
     target := None; p_package_id := Some JDK_ID; confident_to_remove := false;
     check_mode := check_mode; verbosity := 0 |}.

(** The manifest of the JDK. *)
Definition jdk_manifest : list string :=
  [JDK_ROOT +:+ "/settings.plist";
   JDK_ROOT +:+ "/Contents/Home/lib/modules";
   JDK_ROOT +:+ "/Contents/Home/lib/modules/java.base";
   JDK_ROOT +:+ "/Contents/Home/lib/security/public_suffix_list.dat"].

(** The run of [remove_jdk None] on a host that has the JDK: the state
    after the probe, and the state after the manifest was enumerated. *)
Definition probed_state : State :=
  Eval vm_compute in
    (probe_phase (jdk_host true) (remove_params false)
       (initial_state (jdk_host true) (remove_params false))).2.

Definition enumerated_state : State :=
  Eval vm_compute in (package_files (jdk_host true) JDK_ID "/" probed_state).2.

(** [app_name: JDK, state: absent] and no package id. *)
Definition remove_without_id : Args :=
  {| a_app_name := Some "JDK"; a_pkg_path := None; a_creates := None;
     a_state := Some "absent"; a_target := None; a_package_id := None;
     a_confident_to_remove := Some true |}.

Definition remove_without_id_params : Params :=
  {| app_name := "JDK"; pkg_path := Some ""; creates := None; state := Absent;
     target := None; p_package_id := None; confident_to_remove := true;
     check_mode := false; verbosity := 0 |}.

(** The run of [install_jdk] on a host without the JDK: the state after the
    probe. *)
Definition unprobed_state : State :=
  Eval vm_compute in
    (probe_phase (jdk_host false) jdk_params
       (initial_state (jdk_host false) jdk_params)).2.

(** A host that answers every command with the same exit code and output,
    whose clock stands still and whose file system is empty. *)
Definition still_host (rc : Z) (out : string) : Host :=
  {| ansible_run_command _ _ _ := Returned rc out "";
     utcnow _ := "T";
     path_exists _ _ := false;
     path_isdir _ _ := false;
     path_isfile _ _ := false;
     realpath _ path := path;
     rmtree _ _ := None;
     remove _ _ := None;
     fromtimestamp t := inr (pretty t);
     geteuid := 501;
     expanduser_home := "/Users/me" |}.

End Hosts.

(** * Properties *)

(** ** Strings *)

Section StringFacts.

#[local] Arguments String.append !_ _ / : simpl nomatch.

Lemma append_assoc (a b c : string) : (a +:+ b) +:+ c = a +:+ b +:+ c.
Proof. induction a as [|x a IH]; cbn; [done | by f_equal]. Qed.

Lemma append_inv_length (a b a' b' : string) :
  a +:+ b = a' +:+ b' -> String.length a = String.length a' -> a = a' /\ b = b'.
Proof.
  revert a'. induction a as [|x a IH]; intros [|y a'] E Hl; cbn in *; try done.
  injection E as -> E. destruct (IH a' E) as [-> ->]; [lia | done].
Qed.

Lemma startswith_spec (p s : string) :
  Py.startswith p s = true <-> exists r, s = p +:+ r.
Proof.
  revert s. induction p as [|a p IH]; intros s; cbn.
  - split; [eauto | done].
  - destruct s as [|b s].
    + split; [done | intros [r Hr]; discriminate].
    + destruct (Ascii.eqb_spec a b) as [->|Hne].
      * rewrite IH. split; intros [r Hr]; exists r; congruence.
      * split; [done | intros [r Hr]; congruence].
Qed.

Lemma drop_append (p r : string) : Py.drop (String.length p) (p +:+ r) = r.
Proof. induction p as [|a p IH]; cbn; [by destruct r | done]. Qed.

(** The group holds the text up to the end of the line. *)
Lemma dot_star_spec (r v : string) :
  dot_star r = v <-> exists post, r = v +:+ post /\ no_newline v /\ line_ends post.
Proof.
  revert v. induction r as [|c r IH]; intros v; cbn.
  - split.
    + intros <-. exists "". repeat split; [|by left]. intros [|] ?; discriminate.
    + intros (post & H & _ & _). destruct v; [done | discriminate].
  - destruct (Ascii.eqb_spec c Py.newline) as [->|Hne].
    + split.
      * intros <-. exists (String Py.newline r). repeat split.
        -- intros [|] ?; discriminate.
        -- right; eauto.
      * intros (post & H & Hv & _). destruct v as [|x v]; [done|].
        cbn in H. injection H as <- _. exfalso. by apply (Hv "" v).
    + split.
      * intros <-. destruct (proj1 (IH _) eq_refl) as (post & H1 & H2 & H3).
        exists post. repeat split; [cbn; congruence | | done].
        intros [|x a] b E; cbn in E; [congruence|].
        injection E as _ E. by apply (H2 a b).
      * intros (post & H & Hv & Hp). destruct v as [|x v].
        -- cbn in H. destruct Hp as [->|[t ->]]; [discriminate | congruence].
        -- cbn in H. injection H as <- H. f_equal. apply IH.
           exists post. repeat split; [done | | done].
           intros a b E. apply (Hv (String c a) b). cbn. by rewrite E.
Qed.

Lemma re_key_group_spec (key s g : string) :
  re_key_group key s = Some g <->
  exists r, s = key +:+ ": " +:+ r /\ g = dot_star r.
Proof.
  unfold re_key_group. destruct (Py.startswith (key +:+ ": ") s) eqn:E.
  - apply startswith_spec in E as [r ->]. rewrite drop_append, append_assoc.
    split.
    + intros [= <-]. eauto.
    + intros (r' & H & ->). rewrite <- !append_assoc in H.
      apply append_inv_length in H as [_ ->]; done.
  - split; [done|]. intros (r & -> & _).
    rewrite <- append_assoc in E.
    assert (Py.startswith (key +:+ ": ") ((key +:+ ": ") +:+ r) = true)
      by (apply startswith_spec; eauto).
    congruence.
Qed.

Lemma re_key_group_None (key s : string) :
  re_key_group key s = None <-> forall r, s <> key +:+ ": " +:+ r.
Proof.
  split.
  - intros E r ->.
    assert (re_key_group key (key +:+ ": " +:+ r) = Some (dot_star r))
      by (apply re_key_group_spec; eauto).
    congruence.
  - intros H. destruct (re_key_group key s) eqn:E; [|done].
    apply re_key_group_spec in E as (r & -> & _). by destruct (H r).
Qed.

(** The wildcard fails only when the rest of the pattern fails everywhere. *)
Lemma re_any_star_None (rest : string -> option string) (s : string) :
  re_any_star rest s = None <-> forall pre suf, s = pre +:+ suf -> rest suf = None.
Proof.
  induction s as [|c s IH]; cbn.
  - split.
    + intros H [|] suf E; [cbn in E; by subst | discriminate].
    + intros H. by apply (H "" "").
  - split.
    + intros H [|x pre] suf E; cbn in E.
      * subst suf. by destruct (re_any_star rest s).
      * injection E as -> E. destruct (re_any_star rest s) eqn:Es; [done|].
        by apply (proj1 IH eq_refl pre).
    + intros H. rewrite (proj2 IH).
      * by apply (H "").
      * intros pre suf ->. by apply (H (String c pre)).
Qed.

(** The greedy wildcard keeps the rightmost position at which the rest of
    the pattern matches. *)
Lemma re_any_star_rightmost (rest : string -> option string) (pre suf g : string) :
  rest suf = Some g ->
  (forall pre' suf', pre +:+ suf = pre' +:+ suf' ->
     (String.length pre < String.length pre')%nat -> rest suf' = None) ->
  re_any_star rest (pre +:+ suf) = Some g.
Proof.
  intros Hg. induction pre as [|c pre IH]; intros Hmax; cbn.
  - destruct suf as [|c s]; cbn; [done|].
    rewrite (proj2 (re_any_star_None rest s)); [done|].
    intros pre' suf' ->. apply (Hmax (String c pre')); cbn; [done | lia].
  - rewrite IH; [done|].
    intros pre' suf' E Hl. apply (Hmax (String c pre')); cbn; [congruence | lia].
Qed.

Lemma re_any_star_Some (rest : string -> option string) (s g : string) :
  re_any_star rest s = Some g ->
  exists pre suf, s = pre +:+ suf /\ rest suf = Some g /\
    forall pre' suf', s = pre' +:+ suf' ->
      (String.length pre < String.length pre')%nat -> rest suf' = None.
Proof.
  revert g. induction s as [|c s IH]; intros g; cbn.
  - intros H. exists "", "". repeat split; [done|].
    intros [|] suf' E Hl; [cbn in Hl; lia | discriminate].
  - destruct (re_any_star rest s) as [g'|] eqn:Es.
    + intros [= <-]. destruct (IH g' eq_refl) as (pre & suf & E & H & Hmax).
      exists (String c pre), suf. repeat split; [cbn; congruence | done |].
      intros [|x pre'] suf' E' Hl; [cbn in Hl; lia|].
      cbn in E'. injection E' as -> E'. apply (Hmax pre'); [done | cbn in Hl; lia].
    + intros H. exists "", (String c s). repeat split; [done|].
      intros [|x pre'] suf' E' Hl; [cbn in Hl; lia|].
      cbn in E'. injection E' as -> E'.
      by apply (proj1 (re_any_star_None rest s) Es pre').
Qed.

End StringFacts.

(** ** The transcript parser *)

(** C6.  For a key without regular-expression metacharacters, [parse_out]
    returns [v] exactly when the transcript holds the text [key: v] with [v]
    running to the end of its line and no occurrence of [key: ] starts
    further right: the last occurrence wins.  When [key: ] occurs nowhere,
    and only then, it raises [PkgException] with the message, the key and the
    whole transcript; it raises nothing else, so there is no default value. *)
Theorem parse_out_last_match (key std_out : string) :
  key_is_literal key = true ->
  (forall v, parse_out key std_out = inr v <->
     exists pre post,
       std_out = pre +:+ key +:+ ": " +:+ v +:+ post /\
       no_newline v /\ line_ends post /\
       forall pre' post', std_out = pre' +:+ key +:+ ": " +:+ post' ->
         (String.length pre' <= String.length pre)%nat) /\
  ((forall pre post, std_out <> pre +:+ key +:+ ": " +:+ post) <->
     parse_out key std_out = inl (key_not_found key std_out)) /\
  (forall e, parse_out key std_out = inl e -> e = key_not_found key std_out).
Proof.
  intros _. unfold parse_out. split; [intros v; split | split; [split|]].
  - destruct (re_any_star (re_key_group key) std_out) as [g|] eqn:E; [|done].
    intros [= <-]. apply re_any_star_Some in E as (pre & suf & -> & Hg & Hmax).
    apply re_key_group_spec in Hg as (r & -> & ->).
    destruct (proj1 (dot_star_spec r _) eq_refl) as (post & Hr & Hv & Hp).
    exists pre, post. rewrite <- Hr. repeat split; [done..|].
    intros pre' post' E'.
    destruct (decide (String.length pre' <= String.length pre)%nat) as [|Hl]; [done|].
    exfalso. specialize (Hmax pre' _ E' ltac:(lia)).
    by apply (proj1 (re_key_group_None _ _) Hmax post').
  - intros (pre & post & -> & Hv & Hp & Hmax).
    rewrite (re_any_star_rightmost _ pre _ v); [done | |].
    + apply re_key_group_spec. eexists; split; [done|]. symmetry.
      apply dot_star_spec. eauto.
    + intros pre' suf' E' Hl. apply re_key_group_None. intros r ->.
      specialize (Hmax pre' r E'). lia.
  - intros H. rewrite (proj2 (re_any_star_None _ _)); [done|].
    intros pre suf ->. apply re_key_group_None. intros r ->. by apply (H pre r).
  - destruct (re_any_star (re_key_group key) std_out) as [g|] eqn:E; [done|].
    intros _ pre post ->.
    pose proof (proj1 (re_any_star_None _ _) E pre _ eq_refl) as H.
    by apply (proj1 (re_key_group_None _ _) H post).
  - destruct (re_any_star (re_key_group key) std_out); [done|]. by intros e [= <-].
Qed.

Lemma parse_out_last_match_witness :
  key_is_literal "version" = true /\
  (forall e, parse_out "version" Hosts.JDK_PKG_INFO = inl e ->
             e = key_not_found "version" Hosts.JDK_PKG_INFO).
Proof.
  split; [reflexivity|].
  apply (parse_out_last_match "version" Hosts.JDK_PKG_INFO). reflexivity.
Defined.

(** The lookups of [test_parsing], and a key that comes twice. *)
Example parse_out_test_parsing :
  parse_out "version" Hosts.JDK_PKG_INFO = inr "1.1" /\
  parse_out "package-id" Hosts.JDK_PKG_INFO = inr Hosts.JDK_ID.
Proof. split; reflexivity. Qed.

Example parse_out_repeated_key :
  parse_out "version" (Py.join (String Py.newline "") ["version: 1"; "version: 2"; "x: y"])
  = inr "2".
Proof. reflexivity. Qed.

(** ** The file manifest *)

Lemma parse_package_files_fold (root_dir : string) (lines acc : list string) :
  fold_left (parse_package_files_step root_dir) lines acc =
  acc ++ map (fun l => OsPath.join root_dir [l])
             (filter (fun l => l <> "" /\ l <> "Applications") lines).
Proof.
  revert acc. induction lines as [|l lines IH]; intros acc; simpl.
  - by rewrite app_nil_r.
  - rewrite IH, filter_cons. unfold parse_package_files_step.
    case_decide; repeat case_bool_decide; simpl;
      try (exfalso; tauto); [by rewrite <- app_assoc | done..].
Qed.

(** C7.  The manifest is the listing's lines in their order, each joined
    onto [root_dir], without the lines that are empty or [Applications] and
    without any other change; the listing of the example under [/R] gives
    the one path [/R/Applications/App.app/x]. *)
Theorem parse_package_files_manifest (root_dir std_out : string) :
  parse_package_files root_dir std_out =
    map (fun l => OsPath.join root_dir [l])
        (filter (fun l => l <> "" /\ l <> "Applications")
                (Py.split Py.newline std_out)) /\
  Py.split Py.newline Hosts.APP_LISTING = [""; "Applications"; "Applications/App.app/x"] /\
  parse_package_files "/R" Hosts.APP_LISTING = ["/R/Applications/App.app/x"].
Proof.
  split; [|split; reflexivity].
  unfold parse_package_files. by rewrite parse_package_files_fold.
Qed.

(** The two listings of [test_parse_package_files]. *)
Example parse_package_files_test :
  parse_package_files "/"
    (Py.join (String Py.newline "")
       [""; "a"; "s/"; "d"; "f"; "Applications/1Password.app/Config/info.plist"; ""])
  = ["/a"; "/s/"; "/d"; "/f"; "/Applications/1Password.app/Config/info.plist"] /\
  parse_package_files "/Users/mitchell.ludwig"
    (Py.join (String Py.newline "")
       ["a"; "s/"; "d"; "f"; "Applications/1Password.app/Config/info.plist"])
  = ["/Users/mitchell.ludwig/a"; "/Users/mitchell.ludwig/s/";
     "/Users/mitchell.ludwig/d"; "/Users/mitchell.ludwig/f";
     "/Users/mitchell.ludwig/Applications/1Password.app/Config/info.plist"].
Proof. split; reflexivity. Qed.

(** ** The package record *)

(** C5, as the module has it.  [parse_pkg_info] succeeds exactly when the
    five keys are there, the install time is an integer and the host can
    render it.  The root directory of the record is then the real path of
    the text [volume], a slash, [location]: the two parsed values are
    concatenated, not joined, so an absolute [location] stays below the
    volume. *)
Theorem parse_pkg_info_root_dir (h : Host) (hist : list Event) (std_out : string) :
  forall r, parse_pkg_info h hist std_out = inr r <->
    (exists t, parse_out "install-time" std_out = inr t /\
               Py.int t = Some (install_timestamp r)) /\
    parse_out "volume" std_out = inr (volume r) /\
    parse_out "location" std_out = inr (location r) /\
    parse_out "package-id" std_out = inr (package_id r) /\
    parse_out "version" std_out = inr (version r) /\
    root_dir r = realpath h hist (volume r +:+ "/" +:+ location r) /\
    fromtimestamp h (install_timestamp r) = inr (install_datetime r).
Proof.
  intros r. unfold parse_pkg_info, parse_int. split.
  - destruct (parse_out "install-time" std_out) as [|t]; [done|].
    destruct (Py.int t) as [ts|] eqn:Et; [|done].
    destruct (parse_out "volume" std_out) as [|v]; [done|].
    destruct (parse_out "location" std_out) as [|l]; [done|].
    destruct (parse_out "package-id" std_out) as [|pid]; [done|].
    destruct (parse_out "version" std_out) as [|ver]; [done|].
    destruct (fromtimestamp h ts) as [|dt] eqn:Ed; [done|].
    intros [= <-]. simpl. eauto 10.
  - intros ((t & -> & ->) & -> & -> & -> & -> & Hr & ->).
    destruct r; simpl in *. by rewrite Hr.
Qed.

(** C5, as the claim has it, fails: on a host without symbolic links the
    receipt of [DATA_PKG_INFO], whose location is the absolute path
    [/Applications], gets a root directory below its volume, which is neither
    the real path of the location nor that of the join of the two. *)
Lemma absolute_location_stays_below_volume :
  exists r,
    parse_pkg_info (Hosts.jdk_host true) [] Hosts.DATA_PKG_INFO = inr r /\
    volume r = "/Volumes/Data" /\
    location r = "/Applications" /\
    OsPath.join (volume r) [location r] = "/Applications" /\
    root_dir r = "/Volumes/Data/Applications" /\
    root_dir r <> realpath (Hosts.jdk_host true) [] (location r) /\
    root_dir r <> realpath (Hosts.jdk_host true) []
                    (OsPath.join (volume r) [location r]).
Proof. eexists. repeat split; [reflexivity.. | |]; done. Qed.

(** The record of [test_parse_pkg_info]. *)
Example parse_pkg_info_test :
  parse_pkg_info (Hosts.jdk_host true) [] Hosts.JDK_PKG_INFO =
  inr {| package_id := Hosts.JDK_ID; version := "1.1"; volume := "/";
         location := "Library/Java/JavaVirtualMachines/jdk-9.0.4.jdk";
         root_dir := "/Library/Java/JavaVirtualMachines/jdk-9.0.4.jdk";
         install_timestamp := 1520292242;
         install_datetime := "local:1520292242" |}.
Proof. reflexivity. Qed.

(** ** The set difference *)

Lemma set_difference_list_elem (new original : list string) (x : string) :
  x ∈ set_difference_list new original <-> x ∈ new /\ x ∉ original.
Proof.
  unfold set_difference_list.
  rewrite elem_of_elements, elem_of_difference, !elem_of_list_to_set. done.
Qed.

Lemma set_difference_list_ext (new new' original original' : list string) :
  (forall x, x ∈ new' <-> x ∈ new) ->
  (forall x, x ∈ original' <-> x ∈ original) ->
  set_difference_list new' original' = set_difference_list new original.
Proof.
  intros Hn Ho. unfold set_difference_list. f_equal.
  apply set_eq. intros x. rewrite !elem_of_difference, !elem_of_list_to_set.
  by rewrite Hn, Ho.
Qed.

(** C9.  Given the fresh snapshot that [list_all_packages] returns,
    [find_new_packages] returns, and stores under [new_packages], a
    duplicate-free list whose members are exactly the package ids of the
    snapshot that are not in the baseline; the list is the same whatever the
    order and the multiplicity of the ids in either input.  With baseline
    [a, b, c] and snapshot [a, b, c, d, e] its members are [d] and [e]. *)
Theorem find_new_packages_set_difference
    (h : Host) (volume : string) (original new : list string) (s s1 : State) :
  list_all_packages h volume s = (inr new, s1) ->
  exists l,
    find_new_packages h volume original s =
      (inr l, {| result := set_new_packages l (result s1); verbose := verbose s1;
                 history := history s1 |}) /\
    NoDup l /\
    (forall x, x ∈ l <-> x ∈ new /\ x ∉ original) /\
    (forall new' original',
       (forall x, x ∈ new' <-> x ∈ new) ->
       (forall x, x ∈ original' <-> x ∈ original) ->
       set_difference_list new' original' = l) /\
    (forall x, x ∈ set_difference_list ["e"; "a"; "b"; "d"; "c"; "a"] ["c"; "a"; "b"]
               <-> x = "d" \/ x = "e").
Proof.
  intros H. exists (set_difference_list new original).
  split; [|split; [|split; [|split]]].
  - unfold find_new_packages, bind. by rewrite H.
  - apply NoDup_elements.
  - apply set_difference_list_elem.
  - intros new' original'. apply set_difference_list_ext.
  - intros x.
    rewrite set_difference_list_elem, !not_elem_of_cons, !elem_of_cons, elem_of_nil.
    intuition (subst; try congruence; auto).
Qed.

Lemma find_new_packages_set_difference_witness :
  exists l s2,
    find_new_packages (Hosts.jdk_host true) "/" ["com.oracle.jdk8u152"] Hosts.fresh_state
      = (inr l, s2) /\
    forall x, x ∈ l <->
      x ∈ ["com.apple.pkg.CLTools_Executables"; "net.pulsesecure.TnccPlugin.pkg";
           "com.oracle.jdk8u152"] /\ x ∉ ["com.oracle.jdk8u152"].
Proof.
  destruct (find_new_packages_set_difference (Hosts.jdk_host true) "/"
              ["com.oracle.jdk8u152"]
              ["com.apple.pkg.CLTools_Executables"; "net.pulsesecure.TnccPlugin.pkg";
               "com.oracle.jdk8u152"]
              Hosts.fresh_state _ eq_refl) as (l & H1 & _ & H2 & _).
  eexists l, _. split; [exact H1 | exact H2].
Defined.

(** ** Runs: general facts *)

Section RunFacts.

Variable h : Host.

Lemma step_refl (P : Event -> Prop) (s : State) : step P s s.
Proof. split; [done|]. exists []. by rewrite app_nil_r. Qed.

Lemma step_trans (P : Event -> Prop) (s1 s2 s3 : State) :
  step P s1 s2 -> step P s2 s3 -> step P s1 s3.
Proof.
  intros [H1 (e1 & E1 & F1)] [H2 (e2 & E2 & F2)]. split; [congruence|].
  exists (e1 ++ e2). rewrite E2, E1, app_assoc. split; [done | by apply Forall_app].
Qed.

Lemma step_event (P : Event -> Prop) (e : Event) (s : State) :
  P e -> step P s (record_event e s).
Proof. intros He. split; [done|]. exists [e]. split; [done | by constructor]. Qed.

Section Preserves.

Variable P : Event -> Prop.

Lemma preserves_ret {A} (a : A) : preserves (step P) (ret a).
Proof. intros s. apply step_refl. Qed.

Lemma preserves_raise {A} (e : Exn) : preserves (step P) (@raise A e).
Proof. intros s. apply step_refl. Qed.

Lemma preserves_lift {A} (x : Exn + A) : preserves (step P) (lift x).
Proof. destruct x; [apply preserves_raise | apply preserves_ret]. Qed.

Lemma preserves_bind {A B} (m : M A) (k : A -> M B) :
  preserves (step P) m -> (forall a, preserves (step P) (k a)) ->
  preserves (step P) (bind m k).
Proof.
  intros Hm Hk s. unfold bind. specialize (Hm s).
  destruct (m s) as [[sig|a] s1]; simpl in *; [done|].
  eapply step_trans; [done | apply Hk].
Qed.

Lemma preserves_get_history : preserves (step P) get_history.
Proof. intros s. apply step_refl. Qed.

Lemma preserves_get_verbose : preserves (step P) get_verbose.
Proof. intros s. apply step_refl. Qed.

Lemma preserves_get_result : preserves (step P) get_result.
Proof. intros s. apply step_refl. Qed.

Lemma preserves_modify_verbose (f : Verbose -> Verbose) :
  preserves (step P) (modify_verbose f).
Proof. intros s. split; [done|]. exists []. by rewrite app_nil_r. Qed.

Lemma preserves_modify_result (f : Result -> Result) :
  (forall r, changed (f r) = changed r) -> preserves (step P) (modify_result f).
Proof. intros Hf s. split; [apply Hf|]. exists []. by rewrite app_nil_r. Qed.

Lemma preserves_required (name : string) (x : option string) :
  preserves (step P) (required name x).
Proof. destruct x; [apply preserves_ret | apply preserves_raise]. Qed.

Lemma preserves_for_each {A} (body : A -> M unit) (l : list A) :
  (forall a, preserves (step P) (body a)) -> preserves (step P) (for_each body l).
Proof.
  intros Hb. induction l as [|a l IH]; simpl.
  - apply preserves_ret.
  - apply preserves_bind; [apply Hb | by intros _].
Qed.

Lemma preserves_gen_timestamp : P EvClock -> preserves (step P) (gen_timestamp h).
Proof. intros HP s. by apply step_event. Qed.

Lemma preserves_module_run_command (argv : list string) (c : bool) :
  P (EvCommand argv c) -> preserves (step P) (module_run_command h argv c).
Proof.
  intros HP s. unfold module_run_command.
  destruct (ansible_run_command h (history s) argv c); by apply step_event.
Qed.

Lemma preserves_shutil_rmtree (path : string) :
  P (EvRmtree path) -> preserves (step P) (shutil_rmtree h path).
Proof.
  intros HP s. unfold shutil_rmtree.
  destruct (rmtree h (history s) path); by apply step_event.
Qed.

Lemma preserves_os_remove (path : string) :
  P (EvRemove path) -> preserves (step P) (os_remove h path).
Proof.
  intros HP s. unfold os_remove.
  destruct (remove h (history s) path); by apply step_event.
Qed.

End Preserves.

End RunFacts.

(** Takes a monadic term apart down to the calls it makes. *)
Ltac preserves_split :=
  repeat match goal with
    | |- preserves _ (ret _) => apply preserves_ret
    | |- preserves _ (raise _) => apply preserves_raise
    | |- preserves _ (lift _) => apply preserves_lift
    | |- preserves _ (required _ _) => apply preserves_required
    | |- preserves _ get_history => apply preserves_get_history
    | |- preserves _ get_verbose => apply preserves_get_verbose
    | |- preserves _ get_result => apply preserves_get_result
    | |- preserves _ (modify_verbose _) => apply preserves_modify_verbose
    | |- preserves _ (modify_result _) =>
        apply preserves_modify_result; intros []; reflexivity
    | |- preserves _ (bind _ _) => apply preserves_bind; [|intros ?]
    | |- preserves _ (match ?x with _ => _ end) => destruct x
    | |- preserves _ (if ?b then _ else _) => destruct b
    end.

Section Calls.

Variable h : Host.
Variable P : Event -> Prop.
Hypothesis P_clock : P EvClock.

Lemma preserves_run_command (argv : list string) (c : bool) :
  P (EvCommand argv c) -> preserves (step P) (run_command h argv c).
Proof.
  intros HP. unfold run_command. preserves_split;
    auto using preserves_module_run_command, preserves_gen_timestamp.
Qed.

Lemma preserves_pkg_info (package_id volume : string) :
  P (EvCommand (cmd_pkg_info package_id volume) false) ->
  preserves (step P) (pkg_info h package_id volume).
Proof.
  intros HP. unfold pkg_info. preserves_split; auto using preserves_run_command.
Qed.

Lemma preserves_package_files (package_id volume : string) :
  P (EvCommand (cmd_pkg_info package_id volume) false) ->
  P (EvCommand (cmd_files package_id volume) true) ->
  preserves (step P) (package_files h package_id volume).
Proof.
  intros HP1 HP2. unfold package_files. preserves_split;
    auto using preserves_run_command, preserves_pkg_info.
Qed.

Lemma preserves_forget_package (package_id volume : string) :
  P (EvCommand (cmd_forget package_id volume) true) ->
  preserves (step P) (forget_package h package_id volume).
Proof.
  intros HP. unfold forget_package. preserves_split; auto using preserves_run_command.
Qed.

Lemma preserves_is_present (creates : string) (package_id : option string)
    (volume : string) :
  (forall id, package_id = Some id -> P (EvCommand (cmd_pkg_info id volume) false)) ->
  preserves (step P) (is_present h creates package_id volume).
Proof.
  intros HP. unfold is_present. destruct package_id as [id|]; preserves_split.
  apply preserves_pkg_info; auto.
Qed.

Lemma preserves_install (pkg_path target : string) :
  P (EvCommand (cmd_install pkg_path target) true) ->
  preserves (step P) (install h pkg_path target).
Proof.
  intros HP. unfold install. preserves_split; auto using preserves_run_command.
Qed.

Lemma preserves_list_all_packages (volume : string) :
  P (EvCommand (cmd_pkgs volume) false) ->
  preserves (step P) (list_all_packages h volume).
Proof.
  intros HP. unfold list_all_packages. preserves_split;
    auto using preserves_module_run_command, preserves_gen_timestamp.
Qed.

Lemma preserves_remove_path (file_path : string) :
  P (EvRmtree file_path) -> P (EvRemove file_path) ->
  preserves (step P) (remove_path h file_path).
Proof.
  intros HP1 HP2. unfold remove_path, log_removal. preserves_split;
    auto using preserves_shutil_rmtree, preserves_os_remove.
Qed.

End Calls.

(** ** Uninstall *)

Section Uninstall.

Variable h : Host.

Lemma quiet_clock : quiet EvClock.
Proof. reflexivity. Qed.

Lemma quiet_pkg_info (package_id volume : string) :
  quiet (EvCommand (cmd_pkg_info package_id volume) false).
Proof. reflexivity. Qed.

Lemma quiet_files (package_id volume : string) :
  quiet (EvCommand (cmd_files package_id volume) true).
Proof. reflexivity. Qed.

Lemma quiet_not_deletion (e : Event) : quiet e -> is_deletion e = false.
Proof. unfold quiet, is_action. by intros [_ ?]%orb_false_iff. Qed.

Lemma quiet_not_forget (package_id volume : string) (evs : list Event) :
  Forall quiet evs -> forget_event package_id volume ∉ evs.
Proof.
  intros HF Hin. apply (proj1 (Forall_forall _ _) HF) in Hin. by vm_compute in Hin.
Qed.

Lemma deletion_not_forget (package_id volume : string) (evs : list Event) :
  Forall (fun e => is_deletion e = true) evs -> forget_event package_id volume ∉ evs.
Proof.
  intros HF Hin. apply (proj1 (Forall_forall _ _) HF) in Hin. by vm_compute in Hin.
Qed.

(** Where an element stands in a list that holds it once. *)
Lemma split_at_unique {A} (x : A) (l1 l2 pre post : list A) :
  x ∉ l1 -> x ∉ l2 -> l1 ++ x :: l2 = pre ++ x :: post -> pre = l1 /\ post = l2.
Proof.
  intros H1 H2. revert pre. induction l1 as [|a l1 IH]; intros [|b pre] E; simpl in E.
  - by injection E as ->.
  - injection E as -> ->. destruct H2. apply elem_of_app. right. by left.
  - injection E as -> _. destruct H1. by left.
  - injection E as -> E. apply not_elem_of_cons in H1 as [_ H1].
    by destruct (IH H1 pre E) as [-> ->].
Qed.

Lemma for_each_cons {A} (body : A -> M unit) (x : A) (l : list A) (s : State) :
  for_each body (x :: l) s =
  match body x s with
  | (inr _, s') => for_each body l s'
  | (inl sig, s') => (inl sig, s')
  end.
Proof. reflexivity. Qed.

(** One turn of the loop of [uninstall]. *)
Lemma remove_path_cases (f : string) (s : State) :
  match remove_path h f s with
  | (inr _, s') =>
      (path_isdir h (history s) f = true /\ rmtree h (history s) f = None /\
       history s' = history s ++ [EvRmtree f]) \/
      (path_isdir h (history s) f = false /\ path_isfile h (history s) f = true /\
       remove h (history s) f = None /\ history s' = history s ++ [EvRemove f]) \/
      (path_isdir h (history s) f = false /\ path_isfile h (history s) f = false /\
       s' = s)
  | (inl _, s') =>
      (path_isdir h (history s) f = true /\ history s' = history s ++ [EvRmtree f]) \/
      (path_isfile h (history s) f = true /\ history s' = history s ++ [EvRemove f])
  end.
Proof.
  unfold remove_path, log_removal, shutil_rmtree, os_remove, get_history,
    modify_verbose, ret, bind. simpl.
  destruct (path_isdir h (history s) f); simpl.
  - destruct (rmtree h (history s) f); simpl; auto.
  - destruct (path_isfile h (history s) f); simpl.
    + destruct (remove h (history s) f); simpl; auto 10.
    + auto 10.
Qed.

(** The loop of [uninstall]: it makes deletions only, and when it ends
    without an exception every entry has had its turn. *)
Lemma for_each_remove_path (files : list string) (s : State) :
  exists dels,
    history (for_each (remove_path h) files s).2 = history s ++ dels /\
    Forall (fun e => is_deletion e = true) dels /\
    ((for_each (remove_path h) files s).1 = inr tt ->
     attempted h (history s) files dels).
Proof.
  revert s. induction files as [|f files IH]; intros s.
  - exists []. simpl. rewrite app_nil_r. repeat split; [done|]. intros _. constructor.
  - rewrite for_each_cons. pose proof (remove_path_cases f s) as Hc.
    destruct (remove_path h f s) as [[sig|[]] s'].
    + simpl. destruct Hc as [[_ ->] | [_ ->]];
        [exists [EvRmtree f] | exists [EvRemove f]];
        (repeat split; [by repeat constructor | done]).
    + destruct (IH s') as (dels & E & F & Ha). rewrite E.
      destruct Hc as [(Hd & Hr & Hh)|[(Hd & Hf & Hr & Hh)|(Hd & Hf & ->)]].
      * exists (EvRmtree f :: dels). rewrite Hh in *. rewrite <- app_assoc.
        repeat split; [by constructor|]. intros ?. apply attempted_dir; auto.
      * exists (EvRemove f :: dels). rewrite Hh in *. rewrite <- app_assoc.
        repeat split; [by constructor|]. intros ?. apply attempted_file; auto.
      * exists dels. repeat split; [done|]. intros ?. apply attempted_skip; auto.
Qed.

(** Entries that are on the host neither as a directory nor as a file are
    passed over: nothing is done and nothing is raised. *)
Lemma for_each_remove_path_missing (files : list string) (s : State) :
  (forall f, f ∈ files ->
     path_isdir h (history s) f = false /\ path_isfile h (history s) f = false) ->
  for_each (remove_path h) files s = (inr tt, s).
Proof.
  induction files as [|f files IH]; intros Hm; [done|].
  destruct (Hm f) as [Ed Ef]; [by left|].
  rewrite for_each_cons. pose proof (remove_path_cases f s) as Hc.
  destruct (remove_path h f s) as [[sig|[]] s'].
  - destruct Hc as [[? _]|[? _]]; congruence.
  - destruct Hc as [(? & _)|[(_ & ? & _)|(_ & _ & ->)]]; [congruence..|].
    apply IH. intros g Hg. apply Hm. by right.
Qed.
Lemma forget_package_history (package_id volume : string) (s : State) :
  exists tail,
    history (forget_package h package_id volume s).2 =
      history s ++ forget_event package_id volume :: tail /\
    (tail = [] \/ tail = [EvClock]).
Proof.
  unfold forget_package, run_command, bind, module_run_command. simpl.
  destruct (ansible_run_command h (history s) (cmd_forget package_id volume) true);
    simpl; [|exists []; auto..].
  exists [EvClock]. split; [|auto].
  destruct (v_commands (verbose s)); simpl; by rewrite <- app_assoc.
Qed.

Lemma app_eq_self_r {A} (l d : list A) : l = l ++ d -> d = [].
Proof.
  intros E. apply (f_equal length) in E. rewrite length_app in E.
  destruct d; [done | simpl in E; lia].
Qed.

(** C3.  Whatever [uninstall] does to the host, a forget-receipt command
    among it comes after the manifest was enumerated and after every entry
    of the manifest had its turn in the deletion loop, each deletion having
    gone through, and no deletion follows it.  When no entry of the
    manifest is on the host as a directory or as a file, nothing is deleted
    and the receipt is still forgotten: such entries raise no error. *)
Theorem uninstall_forgets_last (package_id volume : string) (s : State) :
  exists new,
    history (uninstall h package_id volume s).2 = history s ++ new /\
    (forall pre post, new = pre ++ forget_event package_id volume :: post ->
       exists files s1 dels,
         package_files h package_id volume s = (inr files, s1) /\
         history s ++ pre = history s1 ++ dels /\
         attempted h (history s1) files dels /\
         Forall (fun e => is_deletion e = false) post) /\
    (forall files s1,
       package_files h package_id volume s = (inr files, s1) ->
       (forall hist f, f ∈ files ->
          path_isdir h hist f = false /\ path_isfile h hist f = false) ->
       forget_event package_id volume ∈ new /\
       Forall (fun e => is_deletion e = false) new).
Proof.
  pose proof (preserves_package_files h quiet quiet_clock package_id volume
                (quiet_pkg_info _ _) (quiet_files _ _) s) as [_ (e1 & E1 & F1)].
  unfold uninstall, bind at 1.
  destruct (package_files h package_id volume s) as [[sig|files] s1] eqn:Epf;
    simpl in E1 |- *.
  { exists e1. split; [done|]. split; [|done].
    intros pre post ->. destruct (quiet_not_forget package_id volume _ F1).
    apply elem_of_app. right. by left. }
  unfold bind at 1, modify_verbose at 1, bind at 1, modify_verbose at 1. simpl.
  unfold bind at 1.
  match goal with |- context [for_each _ _ ?s2] =>
    set (s1' := s2); destruct (for_each_remove_path files s1') as (dels & E2 & F2 & Ha)
  end.
  destruct (for_each (remove_path h) files s1') as [[sig|[]] s2] eqn:Eloop;
    simpl in E2, Ha |- *.
  { exists (e1 ++ dels). rewrite E2, E1, <- app_assoc. split; [done|]. split.
    - intros pre post E.
      assert (forget_event package_id volume ∈ e1 ++ dels) as [Hin|Hin]%elem_of_app.
      { rewrite E. apply elem_of_app. right. by left. }
      + by destruct (quiet_not_forget package_id volume _ F1).
      + by destruct (deletion_not_forget package_id volume _ F2).
    - intros files' s1'' [= <- <-] Hm.
      rewrite for_each_remove_path_missing in Eloop; [done|].
      intros f Hf. by apply Hm. }
  specialize (Ha eq_refl). unfold bind at 1.
  destruct (forget_package_history package_id volume s2) as (tail & E3 & Ht).
  assert (history (match forget_package h package_id volume s2 with
                   | (inr a, s') => ret tt s'
                   | (inl sig, s') => (inl sig, s')
                   end).2 = history (forget_package h package_id volume s2).2) as ->.
  { by destruct (forget_package h package_id volume s2) as [[?|?] ?]. }
  exists ((e1 ++ dels) ++ forget_event package_id volume :: tail).
  rewrite E3, E2, E1, <- !app_assoc. split; [done|]. split.
  - intros pre post E. rewrite (app_assoc e1) in E.
    apply split_at_unique in E as [-> ->].
    + exists files, s1, dels. split; [done|]. split; [by rewrite E1, app_assoc|].
      split; [done|]. destruct Ht as [->| ->]; repeat constructor.
    + intros [Hin|Hin]%elem_of_app.
      * by destruct (quiet_not_forget package_id volume _ F1).
      * by destruct (deletion_not_forget package_id volume _ F2).
    + destruct Ht as [->| ->]; [apply not_elem_of_nil|].
      by intros ?%list_elem_of_singleton.
  - intros files' s1'' [= <- <-] Hm.
    rewrite for_each_remove_path_missing in Eloop by (intros f Hf; by apply Hm).
    injection Eloop as <-. apply app_eq_self_r in E2 as ->.
    split.
    + apply elem_of_app. right. by left.
    + apply Forall_app. split.
      * eapply Forall_impl; [exact F1 | apply quiet_not_deletion].
      * constructor; [done|]. destruct Ht as [->| ->]; repeat constructor.
Qed.

End Uninstall.

(** ** The audit trail *)

(** C4, as the module has it.  A command that goes through [run_command]
    (the info query, the files listing, the forget and the apply command do)
    and returns to the module, whatever its exit code, sets one entry of the
    audit trail: the entry holds the command and what it returned, and its
    key is the time read after the command has returned; the trail grows by
    one when that key is new.  A command that does not return to the module
    leaves the trail as it was.  The list-all command does not go through
    [run_command]: the trail stays as it was, and what the command returned
    is kept under [all_packages]. *)
Theorem run_command_audit_entry (h : Host) (argv : list string) (c : bool) (s : State) :
  (forall rc out err,
     ansible_run_command h (history s) argv c = Returned rc out err ->
     exists s',
       run_command h argv c s = (inr (rc, out, err), s') /\
       history s' = history s ++ [EvCommand argv c; EvClock] /\
       audit_trail s' =
         <[utcnow h (history s ++ [EvCommand argv c]) :=
             {| command_list := argv; check_rc := c; rc := rc;
                stdout := out; stderr := err |}]> (audit_trail s) /\
       (audit_trail s !! utcnow h (history s ++ [EvCommand argv c]) = None ->
        size (audit_trail s') = S (size (audit_trail s)))) /\
  ((forall rc out err, ansible_run_command h (history s) argv c <> Returned rc out err) ->
   exists sig,
     run_command h argv c s = (inl sig, record_event (EvCommand argv c) s)) /\
  (forall volume,
     audit_trail (list_all_packages h volume s).2 = audit_trail s /\
     forall rc out err,
       ansible_run_command h (history s) (cmd_pkgs volume) false = Returned rc out err ->
       v_all_packages (verbose (list_all_packages h volume s).2) = Some (rc, out, err)).
Proof.
  split; [|split].
  - intros rc out err E. unfold run_command, bind, module_run_command. rewrite E.
    unfold audit_trail. simpl.
    destruct (v_commands (verbose s)) as [t|] eqn:Ev; simpl;
      (eexists; split; [reflexivity|]; simpl; rewrite ?Ev; simpl;
       split; [by rewrite <- app_assoc|]; split; [done|];
       intros Hn; by apply map_size_insert_None).
  - intros Hn. unfold run_command, bind, module_run_command.
    destruct (ansible_run_command h (history s) argv c) as [rc out err| |] eqn:E;
      [by destruct (Hn rc out err) | eauto..].
  - intros volume. unfold list_all_packages, bind, module_run_command, audit_trail.
    destruct (ansible_run_command h (history s) (cmd_pkgs volume) false)
      as [rc out err| |] eqn:E; simpl; [|split; [done | congruence]..].
    destruct (bool_decide (rc = 0)); simpl.
    + destruct (r_installed_packages (result s)); simpl;
        (split; [done | by intros ? ? ? [= <- <- <-]]).
    + split; [done | by intros ? ? ? [= <- <- <-]].
Qed.

(** C4, as the claim has it, fails on three counts.  The list-all command
    is attempted and leaves no entry.  A files listing that the framework
    turns fatal is attempted and leaves no entry.  The entry of an info
    query is stamped with the time read after the command has returned
    ([T1] on a host whose clock showed [T0] when the command was invoked). *)
Lemma audit_trail_misses_commands :
  ((list_all_packages (Hosts.jdk_host true) "/" Hosts.fresh_state).1 =
     inr ["com.apple.pkg.CLTools_Executables"; "net.pulsesecure.TnccPlugin.pkg";
          "com.oracle.jdk8u152"] /\
   history (list_all_packages (Hosts.jdk_host true) "/" Hosts.fresh_state).2 =
     [EvCommand (cmd_pkgs "/") false; EvClock] /\
   audit_trail (list_all_packages (Hosts.jdk_host true) "/" Hosts.fresh_state).2 = ∅) /\
  ((run_command (Hosts.jdk_host false) (cmd_files Hosts.JDK_ID "/") true
      Hosts.fresh_state).1 = inl SystemExit /\
   history (run_command (Hosts.jdk_host false) (cmd_files Hosts.JDK_ID "/") true
              Hosts.fresh_state).2 = [EvCommand (cmd_files Hosts.JDK_ID "/") true] /\
   audit_trail (run_command (Hosts.jdk_host false) (cmd_files Hosts.JDK_ID "/") true
                  Hosts.fresh_state).2 = ∅) /\
  ((run_command (Hosts.jdk_host true) (cmd_pkg_info Hosts.JDK_ID "/") false
      Hosts.fresh_state).1 = inr (0, Hosts.JDK_PKG_INFO, "") /\
   utcnow (Hosts.jdk_host true) (history Hosts.fresh_state) = "T0" /\
   audit_trail (run_command (Hosts.jdk_host true) (cmd_pkg_info Hosts.JDK_ID "/") false
                  Hosts.fresh_state).2 =
     {[ "T1" := {| command_list := cmd_pkg_info Hosts.JDK_ID "/"; check_rc := false;
                   rc := 0; stdout := Hosts.JDK_PKG_INFO; stderr := "" |} ]}).
Proof. repeat split; vm_compute; reflexivity. Qed.

(** The trail of [test_pkg_info_with_jdk_absent]: the query exits with 1 and
    is logged all the same. *)
Example run_command_logs_failed_query :
  (pkg_info (Hosts.jdk_host false) Hosts.JDK_ID "/" Hosts.fresh_state).1 = inr InfoAbsent /\
  audit_trail (pkg_info (Hosts.jdk_host false) Hosts.JDK_ID "/" Hosts.fresh_state).2 =
    {[ "T1" := {| command_list := cmd_pkg_info Hosts.JDK_ID "/"; check_rc := false;
                  rc := 1; stdout := ""; stderr := "No receipt found" |} ]}.
Proof. split; vm_compute; reflexivity. Qed.

(** ** The run *)

Lemma is_probe_quiet (volume : string) (package_id : option string) (e : Event) :
  is_probe volume package_id e -> quiet e.
Proof. by intros [->|[->|(id & _ & ->)]]. Qed.

Lemma preserves_uninstall (h : Host) (package_id volume : string) :
  preserves (step any_event) (uninstall h package_id volume).
Proof.
  unfold uninstall. preserves_split.
  - by apply preserves_package_files.
  - apply preserves_for_each. intros f. by apply preserves_remove_path.
  - by apply preserves_forget_package.
Qed.

(** The second half of the [try] block never touches the [changed] flag. *)
Lemma preserves_action_phase (h : Host) (p : Params) (messages : list string) (b : bool) :
  preserves (step any_event) (action_phase h p messages b).
Proof.
  unfold action_phase. preserves_split.
  - by apply preserves_install.
  - by apply preserves_package_files.
  - apply preserves_uninstall.
Qed.

Lemma bind_run {A B} (m : M A) (k : A -> M B) (s : State) :
  bind m k s = match m s with
               | (inr a, s') => k a s'
               | (inl sig, s') => (inl sig, s')
               end.
Proof. reflexivity. Qed.

Lemma ret_run {A} (a : A) (s : State) : ret a s = (inr a, s).
Proof. reflexivity. Qed.

Lemma raise_run {A} (e : Exn) (s : State) : @raise A e s = (inl (Exception e), s).
Proof. reflexivity. Qed.

Lemma modify_verbose_run (f : Verbose -> Verbose) (s : State) :
  modify_verbose f s =
  (inr tt, {| result := result s; verbose := f (verbose s); history := history s |}).
Proof. reflexivity. Qed.

Lemma modify_result_run (f : Result -> Result) (s : State) :
  modify_result f s =
  (inr tt, {| result := f (result s); verbose := verbose s; history := history s |}).
Proof. reflexivity. Qed.

Ltac run :=
  repeat (rewrite ?bind_run, ?ret_run, ?raise_run, ?modify_verbose_run,
            ?modify_result_run; cbv beta iota).

(** The first half sees list-all and the info query only; it sets the flag
    when it comes to its end and leaves it alone when it does not. *)
Lemma probe_phase_spec (h : Host) (p : Params) (s : State) :
  exists evs,
    history (probe_phase h p s).2 = history s ++ evs /\
    Forall (is_probe (run_volume h) (p_package_id p)) evs /\
    changed (result (probe_phase h p s).2) =
      match (probe_phase h p s).1 with
      | inr b => xorb b (should_be_present p)
      | inl _ => changed (result s)
      end.
Proof.
  pose proof (preserves_list_all_packages h (is_probe (run_volume h) (p_package_id p))
                (or_introl eq_refl) (run_volume h) (or_intror (or_introl eq_refl)) s)
    as [C1 (e1 & E1 & F1)].
  assert (exists evs, history s = history s ++ evs /\
            Forall (is_probe (run_volume h) (p_package_id p)) evs) as Hnil.
  { exists []. by rewrite app_nil_r. }
  unfold probe_phase.
  assert (forall s2,
    step (is_probe (run_volume h) (p_package_id p)) s2
      (is_present h (run_creates h p) (p_package_id p) (run_volume h) s2).2) as Hp.
  { apply preserves_is_present; [by left|]. intros id E. right. right. eauto. }
  destruct (state p), (pkg_path p), (p_package_id p) as [id|]; run;
    try (destruct Hnil as (evs & ? & ?); by exists evs).
  all: destruct (list_all_packages h (run_volume h) s) as [[sig|l] s1];
    cbn [fst snd] in *; [by exists e1|]; run.
  all: match goal with |- context [is_present ?a ?b ?c ?d ?s2] =>
      destruct (Hp s2) as [C2 (e2 & E2 & F2)];
      destruct (is_present a b c d s2) as [[sig|b'] s3]
    end; cbn [fst snd history result verbose changed set_changed] in *; run;
    cbn [fst snd history result verbose changed set_changed] in *;
    exists (e1 ++ e2); rewrite E2, E1, app_assoc;
    (split; [done|]; split; [by apply Forall_app|]); [congruence | done].
Qed.

Lemma conclude_changed (p : Params) (r : (Signal + unit) * State) (rep : Report) :
  emitted (conclude p r).1 = Some rep -> changed (rep_result rep) = changed (result r.2).
Proof. destruct r as [[[e|]|[]] s]; simpl; [by intros [= <-]..|done| by intros [= <-]]. Qed.

(** Whatever the module reports, the flag in it is the one the first half
    of the [try] block left. *)
Lemma run_bound_changed (h : Host) (p : Params) (rep : Report) :
  emitted (run_bound h p).1 = Some rep ->
  changed (rep_result rep) =
    match (probe_phase h p (initial_state h p)).1 with
    | inr b => xorb b (should_be_present p)
    | inl _ => false
    end.
Proof.
  intros Hrep. apply conclude_changed in Hrep. rewrite Hrep. clear Hrep.
  destruct (probe_phase_spec h p (initial_state h p)) as (evs & _ & _ & Hc).
  unfold try_block. run.
  destruct (probe_phase h p (initial_state h p)) as [[sig|b] s1]; cbn [fst snd] in *;
    [done|]. run.
  pose proof (preserves_action_phase h p (initial_messages h) b s1) as [Ha _].
  destruct (action_phase h p (initial_messages h) b s1) as [[sig|msgs] s2];
    cbn [fst snd] in *; run; cbn [snd result]; congruence.
Qed.

(** When the probe finds the host as it should be, or the run is in check
    mode, the second half does nothing to the host or to [result]. *)
Lemma action_phase_idle (h : Host) (p : Params) (messages : list string) (b : bool)
    (s : State) :
  check_mode p = true \/ b = should_be_present p ->
  exists messages', action_phase h p messages b s = (inr messages', s).
Proof.
  unfold action_phase. intros [->| ->]; [eauto|].
  destruct (check_mode p); [eauto|].
  destruct (should_be_present p); simpl; run; eauto.
Qed.

Lemma run_module_bound (h : Host) (a : Args) (cm : bool) (v : Z) (p : Params) :
  ansible_module a cm v = Some p -> run_module h a cm v = run_bound h p.
Proof. unfold run_module. by intros ->. Qed.

(** When the second half is idle the run ends in [exit_json], and the host
    has seen what the probe did and nothing more. *)
Lemma run_bound_idle (h : Host) (p : Params) (b : bool) (s1 : State) :
  probe_phase h p (initial_state h p) = (inr b, s1) ->
  check_mode p = true \/ b = should_be_present p ->
  exists rep,
    (run_bound h p).1 = ExitJson rep /\
    changed (rep_result rep) = xorb b (should_be_present p) /\
    (run_bound h p).2 = history s1.
Proof.
  intros Hp Hidle.
  destruct (probe_phase_spec h p (initial_state h p)) as (evs & _ & _ & Hc).
  rewrite Hp in Hc. cbn [fst snd] in Hc.
  destruct (action_phase_idle h p (initial_messages h) b s1 Hidle) as [msgs Ha].
  unfold run_bound, try_block. run. rewrite Hp. run. rewrite Ha. run.
  eexists. split; [reflexivity|]. split; [exact Hc | reflexivity].
Qed.

(** C2.  In a run whose presence probe came back with [b]: everything the
    host had seen by then was list-all, the info query and the clock, so
    the probe precedes any install or uninstall action; whatever the module
    reports, on success or on failure, carries [changed = (b != (state ==
    present))], the value set right after the probe; and when [b] already
    is what the state asks for, the run ends in [exit_json] with [changed]
    false and the host has seen nothing beyond the probe. *)
Theorem changed_flag_from_initial_probe
    (h : Host) (a : Args) (cm : bool) (v : Z) (p : Params) (b : bool) (s1 : State) :
  ansible_module a cm v = Some p ->
  probe_phase h p (initial_state h p) = (inr b, s1) ->
  Forall (fun e => is_action e = false) (history s1) /\
  (forall rep, emitted (run_module h a cm v).1 = Some rep ->
     changed (rep_result rep) = xorb b (should_be_present p)) /\
  (b = should_be_present p ->
     exists rep,
       (run_module h a cm v).1 = ExitJson rep /\
       changed (rep_result rep) = false /\
       (run_module h a cm v).2 = history s1).
Proof.
  intros Hb Hp. rewrite (run_module_bound h a cm v p Hb). split; [|split].
  - destruct (probe_phase_spec h p (initial_state h p)) as (evs & E & F & _).
    rewrite Hp in E. cbn [fst snd] in E. rewrite E. simpl.
    eapply Forall_impl; [exact F | apply is_probe_quiet].
  - intros rep Hrep. rewrite (run_bound_changed h p rep Hrep). by rewrite Hp.
  - intros Hconv.
    destruct (run_bound_idle h p b s1 Hp (or_intror Hconv)) as (rep & H1 & H2 & H3).
    exists rep. split; [done|]. split; [|done].
    rewrite H2, Hconv. apply xorb_nilpotent.
Qed.

(** An installed JDK and [state: present]: nothing to do. *)
Lemma changed_flag_from_initial_probe_witness :
  exists rep hist,
    run_module (Hosts.jdk_host true) Hosts.install_jdk false 0 = (ExitJson rep, hist) /\
    changed (rep_result rep) = false /\
    Forall (fun e => is_action e = false) hist.
Proof.
  destruct (changed_flag_from_initial_probe (Hosts.jdk_host true) Hosts.install_jdk
              false 0 Hosts.jdk_params true
              (probe_phase (Hosts.jdk_host true) Hosts.jdk_params
                 (initial_state (Hosts.jdk_host true) Hosts.jdk_params)).2
              eq_refl eq_refl) as (Hq & _ & Hconv).
  destruct (Hconv eq_refl) as (rep & H1 & H2 & H3).
  exists rep, (run_module (Hosts.jdk_host true) Hosts.install_jdk false 0).2.
  split; [|split; [exact H2 | rewrite H3; exact Hq]].
  rewrite <- H1. apply surjective_pairing.
Defined.

Lemma ansible_module_check_mode (a : Args) (c c' : bool) (v : Z) (p : Params) :
  ansible_module a c v = Some p ->
  ansible_module a c' v = Some (with_check_mode c' p).
Proof.
  unfold ansible_module. destruct (a_app_name a); [|done].
  destruct (a_state a) as [st|]; repeat case_bool_decide; try done;
    by intros [= <-].
Qed.

(** C10.  In check mode the host sees the list-all command, the info query
    of the presence probe and the clock, and nothing else: no install, no
    deletion, no forget.  When the probe comes back with [b] the run ends in
    [exit_json] with [changed = (b != (state == present))]; and whenever the
    module reports in check mode and reports in the same call out of check
    mode, the two reports carry the same [changed]. *)
Theorem check_mode_takes_no_action (h : Host) (a : Args) (v : Z) :
  (forall p, ansible_module a true v = Some p ->
     Forall (is_probe (run_volume h) (p_package_id p)) (run_module h a true v).2) /\
  Forall (fun e => is_action e = false) (run_module h a true v).2 /\
  (forall p b s1,
     ansible_module a true v = Some p ->
     probe_phase h p (initial_state h p) = (inr b, s1) ->
     exists rep,
       (run_module h a true v).1 = ExitJson rep /\
       changed (rep_result rep) = xorb b (should_be_present p) /\
       (run_module h a true v).2 = history s1) /\
  (forall rep rep',
     emitted (run_module h a true v).1 = Some rep ->
     emitted (run_module h a false v).1 = Some rep' ->
     changed (rep_result rep) = changed (rep_result rep')).
Proof.
  assert (forall p, ansible_module a true v = Some p ->
            Forall (is_probe (run_volume h) (p_package_id p)) (run_module h a true v).2)
    as Hprobe.
  { intros p Hb. rewrite (run_module_bound h a true v p Hb).
    assert (check_mode p = true) as Hcm.
    { revert Hb. unfold ansible_module. destruct (a_app_name a); [|done].
      destruct (a_state a); repeat case_bool_decide; try done; by intros [= <-]. }
    destruct (probe_phase_spec h p (initial_state h p)) as (evs & E & F & _).
    destruct (probe_phase h p (initial_state h p)) as [[sig|b] s1] eqn:Hp.
    - unfold run_bound, try_block. run. rewrite Hp. cbn [fst snd] in E.
      destruct sig; simpl; by rewrite E.
    - destruct (run_bound_idle h p b s1 Hp (or_introl Hcm)) as (rep & _ & _ & ->).
      cbn [fst snd] in E. by rewrite E. }
  split; [exact Hprobe|]. split; [|split].
  - destruct (ansible_module a true v) as [p|] eqn:Hb.
    + eapply Forall_impl; [by apply Hprobe | apply is_probe_quiet].
    + unfold run_module. rewrite Hb. constructor.
  - intros p b s1 Hb Hp. rewrite (run_module_bound h a true v p Hb).
    apply run_bound_idle; [done|]. left.
    revert Hb. unfold ansible_module. destruct (a_app_name a); [|done].
    destruct (a_state a); repeat case_bool_decide; try done; by intros [= <-].
  - intros rep rep'. destruct (ansible_module a true v) as [p|] eqn:Hb.
    + rewrite (run_module_bound h a true v p Hb).
      rewrite (run_module_bound h a false v _ (ansible_module_check_mode a true false v p Hb)).
      intros H1 H2. rewrite (run_bound_changed h p rep H1).
      rewrite (run_bound_changed h _ rep' H2). by destruct p.
    + unfold run_module. by rewrite Hb.
Qed.

(** A removal in check mode, on a host that has the package. *)
Example check_mode_removal :
  (run_module (Hosts.jdk_host true) (Hosts.remove_jdk (Some true)) true 0).2 =
    [EvCommand (cmd_pkgs "/") false; EvClock;
     EvCommand (cmd_pkg_info Hosts.JDK_ID "/") false; EvClock] /\
  (changed <$> (rep_result <$>
     emitted (run_module (Hosts.jdk_host true) (Hosts.remove_jdk (Some true)) true 0).1))
    = Some true.
Proof. split; vm_compute; reflexivity. Qed.

(** ** The safety gate *)

Lemma package_files_result (h : Host) (package_id volume : string) (s s2 : State)
    (files : list string) :
  package_files h package_id volume s = (inr files, s2) ->
  r_pkg_files (result s2) = Some files.
Proof.
  unfold package_files. run.
  destruct (pkg_info h package_id volume s) as [[sig|info] s1]; [done|]. run.
  destruct (run_command h (cmd_files package_id volume) true s1) as [[sig|[[rc out] err]] s1'];
    [done|]. run.
  destruct info as [r|]; simpl; run; [|done]. by intros [= <- <-].
Qed.

(** C1, as the module has it.  Take a run out of check mode, with state
    absent, whose presence probe found the package.  Without
    [confident_to_remove] the host sees no install, no deletion and no
    forget, and the run does not end in [exit_json]; when the manifest was
    enumerated the run fails with the not-confident error and the manifest
    is in the report, under [files] and under [pkg_files].  With
    [confident_to_remove], once the manifest is enumerated the run goes
    through [uninstall]: what the host has seen at the end is what it has
    seen when [uninstall] is over, and the run ends as [uninstall] does. *)
Theorem removal_needs_confidence
    (h : Host) (a : Args) (v : Z) (p : Params) (s1 : State) :
  ansible_module a false v = Some p ->
  state p = Absent ->
  probe_phase h p (initial_state h p) = (inr true, s1) ->
  exists id,
    p_package_id p = Some id /\
    (confident_to_remove p = false ->
       Forall (fun e => is_action e = false) (run_module h a false v).2 /\
       (forall rep, (run_module h a false v).1 <> ExitJson rep) /\
       forall files s2,
         package_files h id (run_volume h) s1 = (inr files, s2) ->
         exists rep,
           (run_module h a false v).1 = FailJson not_confident rep /\
           r_error (rep_result rep) = Some not_confident /\
           r_files (rep_result rep) = Some files /\
           r_pkg_files (rep_result rep) = Some files /\
           report_files rep = Some files /\
           (run_module h a false v).2 = history s2) /\
    (confident_to_remove p = true ->
       forall files s2,
         package_files h id (run_volume h) s1 = (inr files, s2) ->
         (run_module h a false v).2 =
           history (uninstall h id (run_volume h) (with_files files s2)).2 /\
         match (uninstall h id (run_volume h) (with_files files s2)).1 with
         | inr _ => exists rep, (run_module h a false v).1 = ExitJson rep
         | inl (Exception e) => exists rep, (run_module h a false v).1 = FailJson e rep
         | inl SystemExit => (run_module h a false v).1 = Aborted
         end).
Proof.
  intros Hb Hs Hp. rewrite (run_module_bound h a false v p Hb).
  assert (check_mode p = false) as Hcm.
  { revert Hb. unfold ansible_module. destruct (a_app_name a); [|done].
    destruct (a_state a); repeat case_bool_decide; try done; by intros [= <-]. }
  assert (exists id, p_package_id p = Some id) as [id Hid].
  { revert Hp. unfold probe_phase. rewrite Hs. run.
    destruct (p_package_id p); [eauto | by run]. }
  exists id. split; [done|].
  destruct (probe_phase_spec h p (initial_state h p)) as (e0 & E0 & F0 & _).
  rewrite Hp in E0. cbn [fst snd] in E0. simpl in E0.
  pose proof (preserves_package_files h quiet quiet_clock id (run_volume h)
                (quiet_pkg_info _ _) (quiet_files _ _) s1) as [_ (e1 & E1 & F1)].
  unfold run_bound, try_block. run. rewrite Hp. run.
  unfold action_phase, should_be_present. rewrite Hcm, Hs, Hid. simpl. run.
  split.
  - intros Hc. rewrite Hc.
    destruct (package_files h id (run_volume h) s1) as [[sig|files] s2] eqn:Epf;
      cbn [fst snd] in E1; run.
    + split; [|split; [|done]].
      * assert (Forall quiet (history s2)) as Hq.
        { rewrite E1, E0. apply Forall_app. split; [|done].
          eapply Forall_impl; [exact F0 | apply is_probe_quiet]. }
        by destruct sig.
      * by destruct sig.
    + split; [|split].
      * simpl. rewrite E1, E0. apply Forall_app. split; [|done].
        eapply Forall_impl; [exact F0 | apply is_probe_quiet].
      * done.
      * intros files' s2' [= <- <-]. eexists. split; [reflexivity|].
        pose proof (package_files_result h id (run_volume h) s1 s2 files Epf) as Hr.
        unfold report_files, report. simpl.
        repeat split; [done|]. by case_bool_decide.
  - intros Hc. rewrite Hc. intros files s2 Epf. rewrite Epf. run.
    fold (with_files files s2).
    destruct (uninstall h id (run_volume h) (with_files files s2)) as [[[e|]|[]] s3];
      run; simpl; eauto.
Qed.

(** A removal without [confident_to_remove], on a host that has the JDK. *)
Lemma removal_needs_confidence_witness :
  exists rep,
    (run_module (Hosts.jdk_host true) (Hosts.remove_jdk None) false 0).1
      = FailJson not_confident rep /\
    report_files rep = Some Hosts.jdk_manifest.
Proof.
  assert (probe_phase (Hosts.jdk_host true) (Hosts.remove_params false)
            (initial_state (Hosts.jdk_host true) (Hosts.remove_params false))
          = (inr true, Hosts.probed_state)) as Hp by (vm_compute; reflexivity).
  assert (package_files (Hosts.jdk_host true) Hosts.JDK_ID "/" Hosts.probed_state
          = (inr Hosts.jdk_manifest, Hosts.enumerated_state)) as Hf
    by (vm_compute; reflexivity).
  destruct (removal_needs_confidence (Hosts.jdk_host true) (Hosts.remove_jdk None) 0
              (Hosts.remove_params false) Hosts.probed_state eq_refl eq_refl Hp)
    as (id & Hid & Hgate & _).
  injection Hid as <-.
  destruct (Hgate eq_refl) as (_ & _ & Hfiles).
  destruct (Hfiles Hosts.jdk_manifest Hosts.enumerated_state Hf)
    as (rep & H1 & _ & _ & _ & H5 & _).
  exists rep. split; [exact H1 | exact H5].
Defined.

(** C1, as the claim has it, fails in check mode: with state absent, the
    package found by the probe and no [confident_to_remove], the run ends in
    [exit_json], without an error and without a manifest in the report; and
    with [confident_to_remove] the host sees the probe and no more, so
    [uninstall] is not called. *)
Lemma removal_in_check_mode_does_not_fail :
  ansible_module (Hosts.remove_jdk None) true 0 = Some (Hosts.remove_params true) /\
  (probe_phase (Hosts.jdk_host true) (Hosts.remove_params true)
     (initial_state (Hosts.jdk_host true) (Hosts.remove_params true))).1 = inr true /\
  (exists rep,
     (run_module (Hosts.jdk_host true) (Hosts.remove_jdk None) true 0).1 = ExitJson rep /\
     r_error (rep_result rep) = None /\
     report_files rep = None) /\
  (run_module (Hosts.jdk_host true) (Hosts.remove_jdk (Some true)) true 0).2 =
    [EvCommand (cmd_pkgs "/") false; EvClock;
     EvCommand (cmd_pkg_info Hosts.JDK_ID "/") false; EvClock].
Proof.
  split; [reflexivity|]. split; [vm_compute; reflexivity|].
  split; [|vm_compute; reflexivity].
  eexists. split; [vm_compute; reflexivity|]. split; reflexivity.
Qed.

(** The same removal with [confident_to_remove]: the files go, the one
    below the removed directory is passed over, then the receipt. *)
Example confident_removal :
  (run_module (Hosts.jdk_host true) (Hosts.remove_jdk (Some true)) false 0).2 =
    [EvCommand (cmd_pkgs "/") false; EvClock;
     EvCommand (cmd_pkg_info Hosts.JDK_ID "/") false; EvClock;
     EvCommand (cmd_pkg_info Hosts.JDK_ID "/") false; EvClock;
     EvCommand (cmd_files Hosts.JDK_ID "/") true; EvClock;
     EvCommand (cmd_pkg_info Hosts.JDK_ID "/") false; EvClock;
     EvCommand (cmd_files Hosts.JDK_ID "/") true; EvClock;
     EvRemove (Hosts.JDK_ROOT +:+ "/settings.plist");
     EvRmtree (Hosts.JDK_ROOT +:+ "/Contents/Home/lib/modules");
     EvRemove (Hosts.JDK_ROOT +:+ "/Contents/Home/lib/security/public_suffix_list.dat");
     forget_event Hosts.JDK_ID "/"; EvClock].
Proof. vm_compute. reflexivity. Qed.

(** ** The [pkg_path] guard *)

(** An option the caller leaves out is bound to the default of
    [module_args], the empty string, so the guard of [run_module] never sees
    [None]. *)
Lemma pkg_path_is_never_None (a : Args) (cm : bool) (v : Z) (p : Params) :
  ansible_module a cm v = Some p -> pkg_path p <> None.
Proof.
  unfold ansible_module. destruct (a_app_name a); [|done].
  destruct (a_state a); repeat case_bool_decide; try done;
    intros [= <-]; simpl; by destruct (a_pkg_path a).
Qed.

(** C8 on the module: [state: present] and no [pkg_path].  Where [creates]
    is already there the run ends in [exit_json] and reports no error; where
    the package is not there the run fails, but for the file that is not at
    the real path of the empty string, not for the missing [pkg_path]. *)
Lemma missing_pkg_path_is_not_reported :
  a_pkg_path (Hosts.install_without_pkg_path None) = None /\
  a_state (Hosts.install_without_pkg_path None) = Some "present" /\
  (exists rep,
     (run_module (Hosts.jdk_host false) (Hosts.install_without_pkg_path None) false 0).1
       = ExitJson rep /\
     changed (rep_result rep) = false /\
     r_error (rep_result rep) = None) /\
  (exists rep,
     (run_module (Hosts.jdk_host false)
        (Hosts.install_without_pkg_path (Some Hosts.JDK_ID)) false 0).1
       = FailJson (PkgException [VStr "pkg file not found at /"]) rep).
Proof.
  split; [reflexivity|]. split; [reflexivity|]. split.
  - eexists. split; [vm_compute; reflexivity|]. split; reflexivity.
  - eexists. vm_compute. reflexivity.
Qed.

(** An empty argument list, as in
    [test_module_fail_when_required_args_missing]: the framework refuses it
    and the module does nothing. *)
Example run_module_without_arguments (h : Host) :
  run_module h Hosts.no_args false 0 = (Aborted, []).
Proof. reflexivity. Qed.

(** ** The probes *)

(** X1.  With a package id the presence probe is the info query and nothing
    else: the answer is whether the query found the package, and the path
    given as [creates] plays no part. *)
Theorem is_present_prefers_package_id
    (h : Host) (creates creates' id volume : string) (s : State) :
  is_present h creates (Some id) volume s = is_present h creates' (Some id) volume s /\
  is_present h creates (Some id) volume s =
    (match (pkg_info h id volume s).1 with
     | inr (InfoPresent _) => inr true
     | inr InfoAbsent => inr false
     | inl sig => inl sig
     end, (pkg_info h id volume s).2).
Proof.
  split; [reflexivity|]. unfold is_present. run.
  by destruct (pkg_info h id volume s) as [[sig|[r|]] s1].
Qed.

(** Without a package id the presence probe is whether the path given
    as [creates] exists; it asks nothing else of the host and leaves the two
    dictionaries alone. *)
Lemma is_present_without_package_id (h : Host) (creates volume : string) (s : State) :
  is_present h creates None volume s = (inr (path_exists h (history s) creates), s).
Proof. reflexivity. Qed.

(** X2.  The info query runs with [check_rc] off.  Exit code 0 gives the
    parsed record, marked present, or the parser's exception; any other exit
    code is the signal for a package that is not there, not an error. *)
Theorem pkg_info_reads_exit_code (h : Host) (id volume : string) (s : State) :
  match ansible_run_command h (history s) (cmd_pkg_info id volume) false with
  | Returned rc out err =>
      if bool_decide (rc = 0) then
        (pkg_info h id volume s).1 =
          match parse_pkg_info h (history s ++ [EvCommand (cmd_pkg_info id volume) false;
                                                EvClock]) out with
          | inr r => inr (InfoPresent r)
          | inl e => inl (Exception e)
          end
      else
        (pkg_info h id volume s).1 = inr InfoAbsent /\
        r_pkg_info (result (pkg_info h id volume s).2) = Some InfoAbsent
  | Raised e => (pkg_info h id volume s).1 = inl (Exception e)
  | Exited => (pkg_info h id volume s).1 = inl SystemExit
  end.
Proof.
  unfold pkg_info, run_command, module_run_command, gen_timestamp, get_verbose,
    get_history, lift. run.
  destruct (ansible_run_command h (history s) (cmd_pkg_info id volume) false)
    as [rc out err| |]; [|done..]. run. simpl.
  destruct (v_commands (verbose s)); run; simpl; rewrite <- app_assoc; simpl;
    case_bool_decide; run; simpl; try done;
    match goal with |- context [parse_pkg_info ?a ?b ?c] =>
      destruct (parse_pkg_info a b c) end; by run.
Qed.

(** X3.  The list-all command: a non-zero exit raises [PkgException] with
    the exit code and both outputs; exit code 0 gives the lines of the
    stripped output. *)
Theorem list_all_packages_reads_exit_code (h : Host) (volume : string) (s : State) :
  match ansible_run_command h (history s) (cmd_pkgs volume) false with
  | Returned rc out err =>
      (list_all_packages h volume s).1 =
        if bool_decide (rc = 0) then inr (Py.split Py.newline (Py.strip out))
        else inl (Exception (PkgException [VStr "installer failed"; VInt rc;
                                           VStr out; VStr err]))
  | Raised e => (list_all_packages h volume s).1 = inl (Exception e)
  | Exited => (list_all_packages h volume s).1 = inl SystemExit
  end.
Proof.
  unfold list_all_packages, module_run_command, gen_timestamp, get_result. run.
  destruct (ansible_run_command h (history s) (cmd_pkgs volume) false)
    as [rc out err| |]; [|done..]. run.
  case_bool_decide; simpl; run; [|done].
  simpl. by destruct (r_installed_packages (result s)); run.
Qed.

(** X4.  [install] looks at the real path of the package first: when that is
    not a regular file it raises and issues no command; when it is, the
    apply command is the next thing the host sees. *)
Theorem install_needs_a_file (h : Host) (pkg_path target : string) (s : State) :
  if path_isfile h (history s) (realpath h (history s) pkg_path) then
    exists rest,
      history (install h pkg_path target s).2 =
        history s ++ EvCommand (cmd_install pkg_path target) true :: rest
  else
    install h pkg_path target s =
      (inl (Exception (PkgException
         [VStr ("pkg file not found at " +:+ realpath h (history s) pkg_path)])), s).
Proof.
  unfold install, get_history. run.
  destruct (path_isfile h (history s) (realpath h (history s) pkg_path)); simpl; run;
    [|done].
  unfold run_command, module_run_command, gen_timestamp, get_verbose. run.
  destruct (ansible_run_command h (history s) (cmd_install pkg_path target) true);
    run; simpl; [|by exists []..].
  destruct (v_commands (verbose s)); run; simpl; rewrite <- app_assoc; eauto.
Qed.

(** ** The manifest and its guard *)

Lemma parse_package_files_elem (root_dir std_out f : string) :
  f ∈ parse_package_files root_dir std_out <->
  exists l, l ∈ Py.split Py.newline std_out /\ l <> "" /\ l <> "Applications" /\
            f = OsPath.join2 root_dir l.
Proof.
  unfold parse_package_files. rewrite parse_package_files_fold. simpl.
  rewrite list_elem_of_In, in_map_iff. split.
  - intros (l & <- & Hl). apply list_elem_of_In, list_elem_of_filter in Hl as [[? ?] ?].
    eauto.
  - intros (l & Hl & H1 & H2 & ->). exists l. split; [done|].
    apply list_elem_of_In, list_elem_of_filter. auto.
Qed.

Section MoreStringFacts.

#[local] Arguments String.append !_ _ / : simpl nomatch.

Lemma append_cancel_l (a b c : string) : a +:+ b = a +:+ c -> b = c.
Proof. induction a as [|x a IH]; cbn; [done|]. intros [= E]. auto. Qed.

End MoreStringFacts.

(** X5.  Under a root directory that is not empty and does not end in a
    slash, a manifest entry is either an absolute line of the listing, taken
    over as it is, or the root, a slash and a relative line, and is then
    neither the root with a slash nor the [Applications] directory below the
    root.  The exclusion stops there: every absolute line of the listing is
    in the manifest, whatever the root. *)
Theorem manifest_guard_is_for_relative_lines (root_dir std_out : string) :
  root_dir <> "" ->
  Py.endswith_char Py.slash root_dir = false ->
  (forall f, f ∈ parse_package_files root_dir std_out ->
     (f ∈ Py.split Py.newline std_out /\ Py.startswith "/" f = true) \/
     (exists l, l ∈ Py.split Py.newline std_out /\
                f = root_dir +:+ "/" +:+ l /\
                f <> root_dir +:+ "/" /\
                f <> root_dir +:+ "/Applications")) /\
  (forall l, l ∈ Py.split Py.newline std_out ->
     Py.startswith "/" l = true -> l ∈ parse_package_files root_dir std_out).
Proof.
  intros Hne Hslash. split.
  - intros f (l & Hl & H1 & H2 & ->)%parse_package_files_elem. unfold OsPath.join2.
    destruct (Py.startswith "/" l) eqn:Ha; [by left|]. right.
    rewrite Hslash, bool_decide_eq_false_2 by done. simpl.
    exists l. split; [done|]. split; [done|]. split.
    + intros E. apply append_cancel_l in E.
      change ("/" +:+ l) with (String "/" l) in E. by injection E.
    + intros E. apply append_cancel_l in E.
      change ("/" +:+ l) with (String "/" l) in E. by injection E.
  - intros l Hl Ha. apply parse_package_files_elem. exists l.
    unfold OsPath.join2. rewrite Ha. repeat split; [done|..].
    + by intros ->.
    + by intros ->.
Qed.

Lemma manifest_guard_is_for_relative_lines_witness :
  "/" ∈ parse_package_files "/R"
          (Py.join (String Py.newline "") ["Applications"; "/"; "bin/tool"]).
Proof.
  apply (manifest_guard_is_for_relative_lines "/R"
           (Py.join (String Py.newline "") ["Applications"; "/"; "bin/tool"]));
    [done | reflexivity | | reflexivity].
  vm_compute. apply list_elem_of_In. simpl. auto.
Defined.

(** ** What [uninstall] touches *)

Lemma for_each_remove_path_within (h : Host) (files : list string) (s : State) :
  exists dels,
    history (for_each (remove_path h) files s).2 = history s ++ dels /\
    Forall (deletes_one_of files) dels.
Proof.
  revert s. induction files as [|f files IH]; intros s.
  - exists []. simpl. by rewrite app_nil_r.
  - rewrite for_each_cons. pose proof (remove_path_cases h f s) as Hc.
    assert (forall e, deletes_one_of files e -> deletes_one_of (f :: files) e) as Hw.
    { intros e (g & Hg & He). exists g. split; [by right | done]. }
    assert (deletes_one_of (f :: files) (EvRmtree f)) as Hd.
    { exists f. split; [by left | by left]. }
    assert (deletes_one_of (f :: files) (EvRemove f)) as Hr.
    { exists f. split; [by left | by right]. }
    destruct (remove_path h f s) as [[sig|[]] s'].
    + simpl. destruct Hc as [[_ ->] | [_ ->]];
        [exists [EvRmtree f] | exists [EvRemove f]]; (split; [done | by constructor]).
    + destruct (IH s') as (dels & E & F). rewrite E.
      apply (Forall_impl _ _ _ F) in Hw.
      destruct Hc as [(_ & _ & Hh)|[(_ & _ & _ & Hh)|(_ & _ & ->)]].
      * exists (EvRmtree f :: dels). rewrite Hh, <- app_assoc. split; [done | by constructor].
      * exists (EvRemove f :: dels). rewrite Hh, <- app_assoc. split; [done | by constructor].
      * by exists dels.
Qed.

(** X6.  Whatever [uninstall] does to the host and however it ends: it
    issues no install command, the only receipt it forgets is the one of
    its own package on its own volume, and every path it deletes is an entry
    of the manifest that [package_files] returned; when the manifest could
    not be enumerated nothing is deleted and nothing forgotten. *)
Theorem uninstall_stays_within_manifest (h : Host) (package_id volume : string) (s : State) :
  exists new,
    history (uninstall h package_id volume s).2 = history s ++ new /\
    Forall (fun e => is_install e = false) new /\
    Forall (fun e => is_forget e = true -> e = forget_event package_id volume) new /\
    match package_files h package_id volume s with
    | (inr files, _) =>
        Forall (fun e => is_deletion e = true -> deletes_one_of files e) new
    | (inl _, _) => Forall (fun e => is_action e = false) new
    end.
Proof.
  pose proof (preserves_package_files h quiet quiet_clock package_id volume
                (quiet_pkg_info _ _) (quiet_files _ _) s) as [_ (e1 & E1 & F1)].
  set (good files e :=
         is_install e = false /\
         (is_forget e = true -> e = forget_event package_id volume) /\
         (is_deletion e = true -> deletes_one_of files e)).
  assert (forall files e, quiet e -> good files e) as Gq.
  { intros files e Hq. pose proof (quiet_not_deletion e Hq) as Hd. revert Hq.
    unfold quiet, is_action.
    intros [[? ?]%orb_false_iff _]%orb_false_iff.
    split; [done|]. split; congruence. }
  assert (forall files e, deletes_one_of files e -> good files e) as Gd.
  { intros files e (f & Hf & He).
    assert (deletes_one_of files e) as Hd by (exists f; auto).
    destruct He as [->| ->]; (split; [done|]; split; [done|]; by intros _). }
  assert (forall files tail, tail = [] \/ tail = [EvClock] ->
            Forall (good files) (forget_event package_id volume :: tail)) as Gf.
  { intros files tail Ht. constructor; [split; [done|]; split; done|].
    destruct Ht as [->| ->]; [constructor|].
    constructor; [split; [done|]; split; done | constructor]. }
  assert (forall files new, Forall (good files) new ->
            Forall (fun e => is_install e = false) new /\
            Forall (fun e => is_forget e = true -> e = forget_event package_id volume) new /\
            Forall (fun e => is_deletion e = true -> deletes_one_of files e) new) as Gs.
  { intros files new HF.
    split; [|split]; (eapply Forall_impl; [exact HF|]); by intros e (? & ? & ?). }
  unfold uninstall. run.
  destruct (package_files h package_id volume s) as [[sig|files] s1];
    cbn [fst snd] in E1 |- *.
  { exists e1. split; [done|].
    destruct (Gs [] e1 (Forall_impl _ _ _ F1 (Gq []))) as (? & ? & _).
    split; [done|]. split; [done | exact F1]. }
  run.
  match goal with |- context [for_each _ _ ?s2] =>
    destruct (for_each_remove_path_within h files s2) as (dels & E2 & F2);
    destruct (for_each (remove_path h) files s2) as [[sig|[]] s3]
  end; cbn [fst snd history] in E2 |- *.
  { exists (e1 ++ dels). rewrite E2, E1, <- app_assoc. split; [done|].
    apply Gs, Forall_app. split; [exact (Forall_impl _ _ _ F1 (Gq files))|].
    exact (Forall_impl _ _ _ F2 (Gd files)). }
  run. destruct (forget_package_history h package_id volume s3) as (tail & E3 & Ht).
  exists (e1 ++ dels ++ forget_event package_id volume :: tail). split.
  - destruct (forget_package h package_id volume s3) as [[sig|?] s4]; run;
      cbn [fst snd] in *; by rewrite E3, E2, E1, <- !app_assoc.
  - apply Gs. apply Forall_app. split; [exact (Forall_impl _ _ _ F1 (Gq files))|].
    apply Forall_app. split; [exact (Forall_impl _ _ _ F2 (Gd files)) | by apply Gf].
Qed.

(** ** Which actions a run can take *)

Lemma preserves_uninstall_events (h : Host) (P : Event -> Prop) (package_id volume : string) :
  P EvClock ->
  P (EvCommand (cmd_pkg_info package_id volume) false) ->
  P (EvCommand (cmd_files package_id volume) true) ->
  P (forget_event package_id volume) ->
  (forall f, P (EvRmtree f) /\ P (EvRemove f)) ->
  preserves (step P) (uninstall h package_id volume).
Proof.
  intros Pc Pi Pf Pg Pd. unfold uninstall. preserves_split.
  - by apply preserves_package_files.
  - apply preserves_for_each. intros f.
    apply preserves_remove_path; [apply (proj1 (Pd f)) | apply (proj2 (Pd f))].
  - by apply preserves_forget_package.
Qed.

Lemma conclude_history (p : Params) (r : (Signal + unit) * State) :
  (conclude p r).2 = history r.2.
Proof. by destruct r as [[[e|]|[]] s]. Qed.

(** The events of a run are those of the probe and then those of the
    action. *)
Lemma run_bound_events (h : Host) (p : Params) (P : Event -> Prop) :
  (forall e, is_probe (run_volume h) (p_package_id p) e -> P e) ->
  (forall b, preserves (step P) (action_phase h p (initial_messages h) b)) ->
  Forall P (run_bound h p).2.
Proof.
  intros Hprobe Hact. unfold run_bound. rewrite conclude_history.
  destruct (probe_phase_spec h p (initial_state h p)) as (e0 & E0 & F0 & _).
  unfold try_block. run.
  destruct (probe_phase h p (initial_state h p)) as [[sig|b] s1]; cbn [fst snd] in *.
  { rewrite E0. simpl. by eapply Forall_impl. }
  run. destruct (Hact b s1) as [_ (e1 & E1 & F1)].
  destruct (action_phase h p (initial_messages h) b s1) as [[sig|msgs] s2];
    run; cbn [fst snd history] in *; rewrite E1, E0; simpl;
    (apply Forall_app; split; [by eapply Forall_impl | done]).
Qed.

(** X7.  The desired state decides which actions a run can take at all.
    With state present the host sees no deletion and no forget-receipt
    command; with state absent it sees no install command.  This holds in
    and out of check mode, whatever the probe finds and however the run
    ends. *)
Theorem run_actions_follow_state (h : Host) (a : Args) (cm : bool) (v : Z) :
  (forall p, ansible_module a cm v = Some p -> state p = Present ->
     Forall (fun e => is_deletion e = false /\ is_forget e = false)
            (run_module h a cm v).2) /\
  (forall p, ansible_module a cm v = Some p -> state p = Absent ->
     Forall (fun e => is_install e = false) (run_module h a cm v).2) /\
  (ansible_module a cm v = None -> (run_module h a cm v).2 = []).
Proof.
  split; [|split].
  - intros p Hb Hs. rewrite (run_module_bound h a cm v p Hb).
    apply run_bound_events.
    + by intros e [->|[->|(id & _ & ->)]].
    + intros b. unfold action_phase, should_be_present. rewrite Hs. preserves_split.
      by apply preserves_install.
  - intros p Hb Hs. rewrite (run_module_bound h a cm v p Hb).
    apply run_bound_events.
    + by intros e [->|[->|(id & _ & ->)]].
    + intros b. unfold action_phase, should_be_present. rewrite Hs. preserves_split.
      * by apply preserves_package_files.
      * by apply preserves_uninstall_events.
  - intros Hb. unfold run_module. by rewrite Hb.
Qed.

(** ** The guards of [run_module] *)

(** X8.  With state absent and no package id the run fails with the
    missing-package-id error before it asks anything of the host: no
    command, no clock reading, [changed] false, and that holds in check mode
    too and whether or not the path given as [creates] exists. *)
Theorem absent_needs_package_id (h : Host) (a : Args) (cm : bool) (v : Z) (p : Params) :
  ansible_module a cm v = Some p ->
  state p = Absent ->
  p_package_id p = None ->
  exists rep,
    run_module h a cm v = (FailJson missing_package_id rep, []) /\
    changed (rep_result rep) = false /\
    r_error (rep_result rep) = Some missing_package_id.
Proof.
  intros Hb Hs Hid. rewrite (run_module_bound h a cm v p Hb).
  unfold run_bound, try_block, probe_phase. rewrite Hs, Hid. run.
  eexists. split; [reflexivity|]. split; reflexivity.
Qed.

Lemma absent_needs_package_id_witness :
  exists rep,
    run_module (Hosts.jdk_host true) Hosts.remove_without_id false 0
      = (FailJson missing_package_id rep, []).
Proof.
  destruct (absent_needs_package_id (Hosts.jdk_host true) Hosts.remove_without_id
              false 0 Hosts.remove_without_id_params eq_refl eq_refl eq_refl)
    as (rep & H & _).
  by exists rep.
Defined.

(** ** Verbosity *)

Lemma ansible_module_verbosity (a : Args) (c : bool) (v v' : Z) (p : Params) :
  ansible_module a c v = Some p ->
  ansible_module a c v' = Some (with_verbosity v' p).
Proof.
  unfold ansible_module. destruct (a_app_name a); [|done].
  destruct (a_state a) as [st|]; repeat case_bool_decide; try done;
    by intros [= <-].
Qed.

Lemma try_block_verbosity (h : Host) (p : Params) (v : Z) :
  try_block h (with_verbosity v p) (initial_state h (with_verbosity v p)) =
  try_block h p (initial_state h p).
Proof. by destruct p. Qed.

(** X9.  The verbosity of a call changes nothing but the detail of the
    report: two calls that differ in verbosity only do the same to the host
    and end the same way with the same [result]; [verbose_result] is merged
    into the report exactly when the verbosity is above zero. *)
Theorem verbosity_only_adds_detail (h : Host) (a : Args) (cm : bool) (v v' : Z) :
  (run_module h a cm v).2 = (run_module h a cm v').2 /\
  without_detail (run_module h a cm v).1 = without_detail (run_module h a cm v').1 /\
  (forall rep, emitted (run_module h a cm v).1 = Some rep ->
     (is_Some (rep_verbose rep) <-> 0 < v)).
Proof.
  destruct (ansible_module a cm v) as [p|] eqn:Hb.
  - rewrite (run_module_bound h a cm v p Hb).
    rewrite (run_module_bound h a cm v' _ (ansible_module_verbosity a cm v v' p Hb)).
    assert (verbosity p = v) as Hv.
    { revert Hb. unfold ansible_module. destruct (a_app_name a); [|done].
      destruct (a_state a); repeat case_bool_decide; try done; by intros [= <-]. }
    unfold run_bound. rewrite try_block_verbosity.
    destruct (try_block h p (initial_state h p)) as [[[e|]|[]] s]; simpl;
      (split; [done|]; split; [done|]); try done;
      intros rep [= <-]; unfold report; simpl; rewrite Hv;
      case_bool_decide; split; try done; by intros [? ?].
  - assert (ansible_module a cm v' = None) as Hb'.
    { revert Hb. unfold ansible_module. destruct (a_app_name a); [|done].
      destruct (a_state a); repeat case_bool_decide; done. }
    unfold run_module. rewrite Hb, Hb'. done.
Qed.

(** ** Installing *)

(** X10.  Take a run out of check mode with state present whose probe did
    not find the package.  When the real path of [pkg_path] is not a
    regular file the run fails with the file-not-found error and the host
    sees nothing beyond the probe; otherwise the apply command for
    [pkg_path] and the target is the one thing that follows the probe, and
    the run ends as that command does.  Every report of such a run, the
    failures included, carries [changed] true. *)
Theorem install_run (h : Host) (a : Args) (v : Z) (p : Params) (s1 : State) :
  ansible_module a false v = Some p ->
  state p = Present ->
  probe_phase h p (initial_state h p) = (inr false, s1) ->
  exists path,
    pkg_path p = Some path /\
    (forall rep, emitted (run_module h a false v).1 = Some rep ->
       changed (rep_result rep) = true) /\
    if path_isfile h (history s1) (realpath h (history s1) path) then
      match ansible_run_command h (history s1) (cmd_install path (run_target h p)) true with
      | Returned _ _ _ =>
          (exists rep, (run_module h a false v).1 = ExitJson rep) /\
          (run_module h a false v).2 =
            history s1 ++ [EvCommand (cmd_install path (run_target h p)) true; EvClock]
      | Raised e =>
          (exists rep, (run_module h a false v).1 = FailJson e rep) /\
          (run_module h a false v).2 =
            history s1 ++ [EvCommand (cmd_install path (run_target h p)) true]
      | Exited =>
          (run_module h a false v).1 = Aborted /\
          (run_module h a false v).2 =
            history s1 ++ [EvCommand (cmd_install path (run_target h p)) true]
      end
    else
      exists rep,
        run_module h a false v =
          (FailJson (pkg_file_not_found (realpath h (history s1) path)) rep, history s1).
Proof.
  intros Hb Hs Hp.
  assert (check_mode p = false) as Hcm.
  { revert Hb. unfold ansible_module. destruct (a_app_name a); [|done].
    destruct (a_state a); repeat case_bool_decide; try done; by intros [= <-]. }
  destruct (pkg_path p) as [path|] eqn:Hpath; [|by destruct (pkg_path_is_never_None a false v p Hb)].
  exists path. split; [done|]. split.
  - intros rep Hrep. rewrite (run_module_bound h a false v p Hb) in Hrep.
    rewrite (run_bound_changed h p rep Hrep), Hp. simpl.
    unfold should_be_present. by rewrite Hs.
  - rewrite (run_module_bound h a false v p Hb).
    unfold run_bound, try_block. run. rewrite Hp. run.
    unfold action_phase, should_be_present. rewrite Hcm, Hs, Hpath. simpl. run.
    unfold install, get_history. run.
    destruct (path_isfile h (history s1) (realpath h (history s1) path)); simpl; run;
      [|eexists; reflexivity].
    unfold run_command, module_run_command, gen_timestamp, get_verbose. run.
    destruct (ansible_run_command h (history s1) (cmd_install path (run_target h p)) true);
      run; simpl; [|eauto..].
    destruct (v_commands (verbose s1)); run; simpl; rewrite <- app_assoc; eauto.
Qed.

Lemma install_run_witness :
  exists rep,
    (run_module (Hosts.jdk_host false) Hosts.install_jdk false 0).1 = ExitJson rep /\
    changed (rep_result rep) = true.
Proof.
  assert (probe_phase (Hosts.jdk_host false) Hosts.jdk_params
            (initial_state (Hosts.jdk_host false) Hosts.jdk_params)
          = (inr false, Hosts.unprobed_state)) as Hp by (vm_compute; reflexivity).
  destruct (install_run (Hosts.jdk_host false) Hosts.install_jdk 0 Hosts.jdk_params
              Hosts.unprobed_state eq_refl eq_refl Hp) as (path & Hpath & Hc & Hrun).
  injection Hpath as <-.
  assert (path_isfile (Hosts.jdk_host false) (history Hosts.unprobed_state)
            (realpath (Hosts.jdk_host false) (history Hosts.unprobed_state)
               "/Downloads/jdk.pkg") = true) as Hf by (vm_compute; reflexivity).
  rewrite Hf in Hrun.
  assert (ansible_run_command (Hosts.jdk_host false) (history Hosts.unprobed_state)
            (cmd_install "/Downloads/jdk.pkg" (run_target (Hosts.jdk_host false) Hosts.jdk_params))
            true = Returned 0 "installer: The install was successful." "") as Hr
    by (vm_compute; reflexivity).
  rewrite Hr in Hrun. destruct Hrun as [[rep Hrep] _].
  exists rep. split; [exact Hrep|]. apply Hc. by rewrite Hrep.
Defined.

Section SplitFacts.

#[local] Arguments String.append !_ _ / : simpl nomatch.

Lemma split_not_nil (sep : ascii) (s : string) : Py.split sep s <> [].
Proof.
  destruct s as [|c s]; cbn; [done|].
  destruct (Ascii.eqb c sep); [done|]. by destruct (Py.split sep s).
Qed.

Lemma join_cons_cons (sep x y : string) (l : list string) :
  Py.join sep (x :: y :: l) = x +:+ sep +:+ Py.join sep (y :: l).
Proof. reflexivity. Qed.

(** Joining the pieces of a split gives the string back. *)
Lemma join_split (sep : ascii) (s : string) :
  Py.join (String sep "") (Py.split sep s) = s.
Proof.
  induction s as [|c s IH]; [done|]. cbn [Py.split].
  pose proof (split_not_nil sep s) as Hne.
  destruct (Ascii.eqb_spec c sep) as [->|Hc].
  - destruct (Py.split sep s) as [|l ls]; [done|].
    rewrite join_cons_cons, IH. reflexivity.
  - destruct (Py.split sep s) as [|l ls]; [done|].
    destruct ls as [|l' ls]; rewrite <- IH; reflexivity.
Qed.

End SplitFacts.

(** ** The package list *)

(** X11.  When the list-all command exits with 0, [list_all_packages]
    returns the lines of the stripped output: the list is never empty (blank
    output gives the one package id that is the empty string), and joined
    by newlines it is the stripped output again, so no line is dropped,
    blank lines inside included.  The list is stored as a snapshot under
    the time read after the command, and snapshots under other times stay
    as they were. *)
Theorem list_all_packages_snapshot
    (h : Host) (volume : string) (s : State) (out err : string) :
  ansible_run_command h (history s) (cmd_pkgs volume) false = Returned 0 out err ->
  exists l s',
    list_all_packages h volume s = (inr l, s') /\
    l <> [] /\
    Py.join (String Py.newline "") l = Py.strip out /\
    (Py.strip out = "" -> l = [""]) /\
    snapshots s' =
      <[utcnow h (history s ++ [EvCommand (cmd_pkgs volume) false]) := l]> (snapshots s) /\
    history s' = history s ++ [EvCommand (cmd_pkgs volume) false; EvClock].
Proof.
  intros E. unfold list_all_packages, module_run_command, gen_timestamp, get_result.
  run. rewrite E. run. simpl. unfold snapshots.
  destruct (r_installed_packages (result s)) eqn:Er; run; simpl; rewrite ?Er;
    (eexists _, _; split; [reflexivity|]; simpl; rewrite ?Er; simpl;
     split; [apply split_not_nil|]; split; [apply join_split|];
     split; [by intros Hb; rewrite Hb|]; split; [done | by rewrite <- app_assoc]).
Qed.

Lemma list_all_packages_snapshot_witness :
  exists l s',
    list_all_packages (Hosts.still_host 0 "") "/" Hosts.fresh_state = (inr l, s') /\
    l = [""].
Proof.
  destruct (list_all_packages_snapshot (Hosts.still_host 0 "") "/" Hosts.fresh_state
              "" "" eq_refl) as (l & s' & H & _ & _ & Hb & _).
  exists l, s'. split; [exact H | by apply Hb].
Defined.

(** X12.  When every package id of the fresh snapshot is in the baseline,
    [find_new_packages] returns the empty list, and stores it under
    [new_packages]. *)
Theorem find_new_packages_nothing_new
    (h : Host) (volume : string) (original new : list string) (s s1 : State) :
  list_all_packages h volume s = (inr new, s1) ->
  (forall x, x ∈ new -> x ∈ original) ->
  (find_new_packages h volume original s).1 = inr [] /\
  r_new_packages (result (find_new_packages h volume original s).2) = Some [].
Proof.
  intros H Hsub. unfold find_new_packages. run. rewrite H. run.
  assert (set_difference_list new original = []) as ->; [|done].
  destruct (set_difference_list new original) as [|x l] eqn:E; [done|].
  assert (x ∈ set_difference_list new original) as Hx by (rewrite E; by left).
  apply set_difference_list_elem in Hx as [Hn Ho]. by destruct (Ho (Hsub x Hn)).
Qed.

Lemma find_new_packages_nothing_new_witness :
  (find_new_packages (Hosts.jdk_host true) "/"
     ["net.pulsesecure.TnccPlugin.pkg"; "com.oracle.jdk8u152";
      "com.apple.pkg.CLTools_Executables"; "com.example.other"]
     Hosts.fresh_state).1 = inr [].
Proof.
  assert (list_all_packages (Hosts.jdk_host true) "/" Hosts.fresh_state =
            (inr ["com.apple.pkg.CLTools_Executables"; "net.pulsesecure.TnccPlugin.pkg";
                  "com.oracle.jdk8u152"],
             (list_all_packages (Hosts.jdk_host true) "/" Hosts.fresh_state).2)) as H
    by (vm_compute; reflexivity).
  apply (find_new_packages_nothing_new _ _ _ _ _ _ H).
  intros x. rewrite !elem_of_cons, elem_of_nil. intuition auto.
Defined.

(** ** The errors of [parse_pkg_info] *)

Lemma parse_out_inl (key std_out : string) (e : Exn) :
  parse_out key std_out = inl e <-> key_missing key std_out /\ e = key_not_found key std_out.
Proof.
  unfold parse_out, key_missing.
  destruct (re_any_star (re_key_group key) std_out) as [g|] eqn:E.
  - split; [done|]. intros [Hm _].
    apply re_any_star_Some in E as (pre & suf & -> & Hg & _).
    apply re_key_group_spec in Hg as (r & -> & _). by destruct (Hm pre r).
  - split; [|by intros [_ ->]]. intros [= <-]. split; [|done].
    intros pre post ->.
    pose proof (proj1 (re_any_star_None _ _) E pre _ eq_refl) as H.
    by apply (proj1 (re_key_group_None _ _) H post).
Qed.

(** X13.  [parse_pkg_info] builds no record from a transcript that lacks one
    of its five keys.  The exceptions it can raise are three: the
    key-not-found error of a key that is missing, [ValueError] for an
    install time that is there and is no integer, and whatever the host
    raises when it renders the time.  A transcript without [install-time]
    gives the key-not-found error of that key, whatever else is in it. *)
Theorem parse_pkg_info_errors (h : Host) (hist : list Event) (std_out : string) :
  (forall key, key ∈ pkg_info_keys -> key_missing key std_out ->
     exists e, parse_pkg_info h hist std_out = inl e) /\
  (forall e, parse_pkg_info h hist std_out = inl e ->
     (exists key, key ∈ pkg_info_keys /\ key_missing key std_out /\
                  e = key_not_found key std_out) \/
     (exists t, parse_out "install-time" std_out = inr t /\ Py.int t = None /\
                e = ValueError t) \/
     (exists t ts, parse_out "install-time" std_out = inr t /\ Py.int t = Some ts /\
                   fromtimestamp h ts = inl e)) /\
  (key_missing "install-time" std_out ->
     parse_pkg_info h hist std_out = inl (key_not_found "install-time" std_out)).
Proof.
  assert (forall key, key_missing key std_out ->
            parse_out key std_out = inl (key_not_found key std_out)) as Hm.
  { intros key Hk. by apply parse_out_inl. }
  assert (forall key e, key ∈ pkg_info_keys -> parse_out key std_out = inl e ->
            exists key, key ∈ pkg_info_keys /\ key_missing key std_out /\
                        e = key_not_found key std_out) as Hk.
  { intros key e Hin [? ->]%parse_out_inl. eauto. }
  unfold parse_pkg_info, parse_int. split; [|split].
  - intros key Hin Hmiss. apply Hm in Hmiss.
    unfold pkg_info_keys in Hin. rewrite !elem_of_cons, elem_of_nil in Hin.
    destruct (parse_out "install-time" std_out) as [|t] eqn:E1; [eauto|].
    destruct (Py.int t) as [ts|]; [|eauto].
    destruct (parse_out "volume" std_out) as [|vol] eqn:E2; [eauto|].
    destruct (parse_out "location" std_out) as [|loc] eqn:E3; [eauto|].
    destruct (parse_out "package-id" std_out) as [|pid] eqn:E4; [eauto|].
    destruct (parse_out "version" std_out) as [|ver] eqn:E5; [eauto|].
    destruct Hin as [->|[->|[->|[->|[->|[]]]]]]; congruence.
  - intros e.
    destruct (parse_out "install-time" std_out) as [e1|t] eqn:E1.
    { intros [= <-]. left. apply (Hk "install-time"); [|done].
      unfold pkg_info_keys. rewrite !elem_of_cons. auto. }
    destruct (Py.int t) as [ts|] eqn:Et; [|intros [= <-]; right; left; eauto].
    destruct (parse_out "volume" std_out) as [e2|vol] eqn:E2.
    { intros [= <-]. left. apply (Hk "volume"); [|done].
      unfold pkg_info_keys. rewrite !elem_of_cons. auto. }
    destruct (parse_out "location" std_out) as [e3|loc] eqn:E3.
    { intros [= <-]. left. apply (Hk "location"); [|done].
      unfold pkg_info_keys. rewrite !elem_of_cons. auto. }
    destruct (parse_out "package-id" std_out) as [e4|pid] eqn:E4.
    { intros [= <-]. left. apply (Hk "package-id"); [|done].
      unfold pkg_info_keys. rewrite !elem_of_cons. auto. }
    destruct (parse_out "version" std_out) as [e5|ver] eqn:E5.
    { intros [= <-]. left. apply (Hk "version"); [|done].
      unfold pkg_info_keys. rewrite !elem_of_cons. auto 10. }
    destruct (fromtimestamp h ts) as [e6|dt] eqn:E6; [|done].
    intros [= <-]. right. right. eauto.
  - intros Hmiss. by rewrite (Hm _ Hmiss).
Qed.

(** ** [package_files] *)

(** X14.  For a package the info query does not find (a non-zero exit),
    [package_files] still issues the files listing, with [check_rc] on, and
    when that returns it fails with [KeyError] for [root_dir]: the manifest
    is not written, and [result['pkg_info']] holds the absent record. *)
Theorem package_files_of_absent_package
    (h : Host) (id volume : string) (s : State) (rc : Z) (out err : string) :
  ansible_run_command h (history s) (cmd_pkg_info id volume) false = Returned rc out err ->
  rc <> 0 ->
  exists tail,
    history (package_files h id volume s).2 =
      history s ++ [EvCommand (cmd_pkg_info id volume) false; EvClock;
                    EvCommand (cmd_files id volume) true] ++ tail /\
    r_pkg_files (result (package_files h id volume s).2) = r_pkg_files (result s) /\
    r_pkg_info (result (package_files h id volume s).2) = Some InfoAbsent /\
    (package_files h id volume s).1 =
      match ansible_run_command h
              (history s ++ [EvCommand (cmd_pkg_info id volume) false; EvClock])
              (cmd_files id volume) true with
      | Returned _ _ _ => inl (Exception (KeyError "root_dir"))
      | Raised e => inl (Exception e)
      | Exited => inl SystemExit
      end.
Proof.
  intros E Hrc.
  unfold package_files, pkg_info, run_command, module_run_command, gen_timestamp,
    get_verbose, get_history, lift. run. rewrite E. run. simpl.
  destruct (v_commands (verbose s)); run; simpl; rewrite <- !app_assoc; simpl;
    rewrite bool_decide_eq_false_2 by done; run; simpl;
    (destruct (ansible_run_command h
                 (history s ++ [EvCommand (cmd_pkg_info id volume) false; EvClock])
                 (cmd_files id volume) true);
     run; simpl; [exists [EvClock] | exists [] | exists []]; rewrite <- ?app_assoc; done).
Qed.

Lemma package_files_of_absent_package_witness :
  (package_files (Hosts.still_host 1 "") "com.example.none" "/" Hosts.fresh_state).1
    = inl (Exception (KeyError "root_dir")).
Proof.
  destruct (package_files_of_absent_package (Hosts.still_host 1 "") "com.example.none"
              "/" Hosts.fresh_state 1 "" "" eq_refl)
    as (tail & _ & _ & _ & H); [done|].
  exact H.
Defined.

(** X15.  When the info query exits with 0 and its transcript parses to a
    record, and the files listing returns, [package_files] returns the
    manifest of that listing under the root directory of that record, and
    stores it under [pkg_files]; the record is under [pkg_info]. *)
Theorem package_files_of_present_package
    (h : Host) (id volume : string) (s : State) (out err : string) (r : PkgRecord)
    (rc' : Z) (out' err' : string) :
  ansible_run_command h (history s) (cmd_pkg_info id volume) false = Returned 0 out err ->
  parse_pkg_info h (history s ++ [EvCommand (cmd_pkg_info id volume) false; EvClock]) out
    = inr r ->
  ansible_run_command h
    (history s ++ [EvCommand (cmd_pkg_info id volume) false; EvClock])
    (cmd_files id volume) true = Returned rc' out' err' ->
  (package_files h id volume s).1 = inr (parse_package_files (root_dir r) out') /\
  r_pkg_files (result (package_files h id volume s).2)
    = Some (parse_package_files (root_dir r) out') /\
  r_pkg_info (result (package_files h id volume s).2) = Some (InfoPresent r) /\
  history (package_files h id volume s).2 =
    history s ++ [EvCommand (cmd_pkg_info id volume) false; EvClock;
                  EvCommand (cmd_files id volume) true; EvClock].
Proof.
  intros E Hr E'.
  unfold package_files, pkg_info, run_command, module_run_command, gen_timestamp,
    get_verbose, get_history, lift. run. rewrite E. run. simpl.
  destruct (v_commands (verbose s)); run; simpl; rewrite <- !app_assoc; simpl;
    run; simpl; rewrite Hr; run; simpl; rewrite E'; run; simpl;
    rewrite <- !app_assoc; done.
Qed.

Lemma package_files_of_present_package_witness :
  (package_files (Hosts.jdk_host true) Hosts.JDK_ID "/" Hosts.fresh_state).1
    = inr Hosts.jdk_manifest.
Proof.
  assert (parse_pkg_info (Hosts.jdk_host true)
            (history Hosts.fresh_state ++
               [EvCommand (cmd_pkg_info Hosts.JDK_ID "/") false; EvClock])
            Hosts.JDK_PKG_INFO
          = inr {| package_id := Hosts.JDK_ID; version := "1.1"; volume := "/";
                   location := "Library/Java/JavaVirtualMachines/jdk-9.0.4.jdk";
                   root_dir := Hosts.JDK_ROOT;
                   install_timestamp := 1520292242;
                   install_datetime := "local:1520292242" |}) as Hr
    by (vm_compute; reflexivity).
  destruct (package_files_of_present_package (Hosts.jdk_host true) Hosts.JDK_ID "/"
              Hosts.fresh_state Hosts.JDK_PKG_INFO "" _ 0 Hosts.JDK_FILES ""
              eq_refl Hr eq_refl) as (H & _).
  rewrite H. vm_compute. reflexivity.
Defined.

(** ** Entries of the audit trail under one timestamp *)

(** X16.  Two commands in a row, both returning.  When the clock shows the
    same time after each, the audit trail holds one entry for the two, the
    second command's: the first is overwritten.  When the two times differ
    the trail holds both entries. *)
Theorem audit_entries_share_timestamps
    (h : Host) (argv1 argv2 : list string) (c1 c2 : bool) (s : State)
    (r1 r2 : Z * string * string) :
  ansible_run_command h (history s) argv1 c1 = Returned r1.1.1 r1.1.2 r1.2 ->
  ansible_run_command h (history s ++ [EvCommand argv1 c1; EvClock]) argv2 c2
    = Returned r2.1.1 r2.1.2 r2.2 ->
  exists s2,
    bind (run_command h argv1 c1) (fun _ => run_command h argv2 c2) s = (inr r2, s2) /\
    (utcnow h (history s ++ [EvCommand argv1 c1]) =
     utcnow h (history s ++ [EvCommand argv1 c1; EvClock; EvCommand argv2 c2]) ->
     audit_trail s2 =
       <[utcnow h (history s ++ [EvCommand argv1 c1]) := entry_of argv2 c2 r2]>
         (audit_trail s)) /\
    (utcnow h (history s ++ [EvCommand argv1 c1]) <>
     utcnow h (history s ++ [EvCommand argv1 c1; EvClock; EvCommand argv2 c2]) ->
     audit_trail s2 !! utcnow h (history s ++ [EvCommand argv1 c1])
       = Some (entry_of argv1 c1 r1) /\
     audit_trail s2 !! utcnow h (history s ++ [EvCommand argv1 c1; EvClock; EvCommand argv2 c2])
       = Some (entry_of argv2 c2 r2)).
Proof.
  destruct r1 as [[rc1 out1] err1], r2 as [[rc2 out2] err2]. simpl. intros E1 E2.
  unfold run_command, module_run_command, gen_timestamp, get_verbose, audit_trail.
  run. rewrite E1. run. simpl.
  destruct (v_commands (verbose s)) as [t|] eqn:Ev; run; simpl; rewrite ?Ev; simpl;
    rewrite <- !app_assoc; simpl; rewrite E2; run; simpl;
    (eexists; split; [reflexivity|]; simpl; rewrite <- !app_assoc; simpl; split;
     [intros <-; by rewrite insert_insert_eq
     |intros Hne; split; [by rewrite lookup_insert_ne, lookup_insert_eq
                         | by rewrite lookup_insert_eq]]).
Qed.

Lemma audit_entries_share_timestamps_witness :
  exists s2,
    bind (run_command (Hosts.still_host 0 "") (cmd_pkg_info "a" "/") false)
         (fun _ => run_command (Hosts.still_host 0 "") (cmd_files "a" "/") true)
         Hosts.fresh_state = (inr (0, "", ""), s2) /\
    audit_trail s2 = {[ "T" := entry_of (cmd_files "a" "/") true (0, "", "") ]}.
Proof.
  destruct (audit_entries_share_timestamps (Hosts.still_host 0 "")
              (cmd_pkg_info "a" "/") (cmd_files "a" "/") false true Hosts.fresh_state
              (0, "", "") (0, "", "") eq_refl eq_refl) as (s2 & H & Hsame & _).
  exists s2. split; [exact H|]. rewrite (Hsame eq_refl). reflexivity.
Defined.

Section Untouched.

Variable h : Host.

Lemma untouched_ret {A} (a : A) : preserves untouched (ret a).
Proof. by intros s. Qed.

Lemma untouched_raise {A} (e : Exn) : preserves untouched (@raise A e).
Proof. by intros s. Qed.

Lemma untouched_lift {A} (x : Exn + A) : preserves untouched (lift x).
Proof. by destruct x. Qed.

Lemma untouched_bind {A B} (m : M A) (k : A -> M B) :
  preserves untouched m -> (forall a, preserves untouched (k a)) ->
  preserves untouched (bind m k).
Proof.
  intros Hm Hk s. unfold bind. specialize (Hm s).
  destruct (m s) as [[sig|a] s1]; simpl in *; [done|].
  unfold untouched in *. rewrite <- Hm. apply Hk.
Qed.

Lemma untouched_get_history : preserves untouched get_history.
Proof. by intros s. Qed.

Lemma untouched_get_verbose : preserves untouched get_verbose.
Proof. by intros s. Qed.

Lemma untouched_get_result : preserves untouched get_result.
Proof. by intros s. Qed.

Lemma untouched_modify_verbose (f : Verbose -> Verbose) :
  (forall v, v_messages (f v) = v_messages v) -> preserves untouched (modify_verbose f).
Proof. intros Hf s. unfold untouched, outer_keys. simpl. by rewrite Hf. Qed.

Lemma untouched_modify_result (f : Result -> Result) :
  (forall r, (message (f r), r_new_packages (f r), r_error (f r))
             = (message r, r_new_packages r, r_error r)) ->
  preserves untouched (modify_result f).
Proof.
  intros Hf s. unfold untouched, outer_keys. simpl.
  specialize (Hf (result s)). congruence.
Qed.

Lemma untouched_required (name : string) (x : option string) :
  preserves untouched (required name x).
Proof. by destruct x. Qed.

Lemma untouched_for_each {A} (body : A -> M unit) (l : list A) :
  (forall a, preserves untouched (body a)) -> preserves untouched (for_each body l).
Proof.
  intros Hb. induction l as [|a l IH]; simpl.
  - apply untouched_ret.
  - apply untouched_bind; [apply Hb | by intros _].
Qed.

Lemma untouched_gen_timestamp : preserves untouched (gen_timestamp h).
Proof. by intros s. Qed.

Lemma untouched_module_run_command (argv : list string) (c : bool) :
  preserves untouched (module_run_command h argv c).
Proof.
  intros s. unfold module_run_command.
  by destruct (ansible_run_command h (history s) argv c).
Qed.

Lemma untouched_shutil_rmtree (path : string) : preserves untouched (shutil_rmtree h path).
Proof. intros s. unfold shutil_rmtree. by destruct (rmtree h (history s) path). Qed.

Lemma untouched_os_remove (path : string) : preserves untouched (os_remove h path).
Proof. intros s. unfold os_remove. by destruct (remove h (history s) path). Qed.

End Untouched.

Ltac untouched_split :=
  repeat match goal with
    | |- preserves _ (ret _) => apply untouched_ret
    | |- preserves _ (raise _) => apply untouched_raise
    | |- preserves _ (lift _) => apply untouched_lift
    | |- preserves _ (required _ _) => apply untouched_required
    | |- preserves _ get_history => apply untouched_get_history
    | |- preserves _ get_verbose => apply untouched_get_verbose
    | |- preserves _ get_result => apply untouched_get_result
    | |- preserves _ (gen_timestamp _) => apply untouched_gen_timestamp
    | |- preserves _ (module_run_command _ _ _) => apply untouched_module_run_command
    | |- preserves _ (shutil_rmtree _ _) => apply untouched_shutil_rmtree
    | |- preserves _ (os_remove _ _) => apply untouched_os_remove
    | |- preserves _ (modify_verbose _) =>
        apply untouched_modify_verbose; intros []; reflexivity
    | |- preserves _ (modify_result _) =>
        apply untouched_modify_result; intros []; reflexivity
    | |- preserves _ (for_each _ _) => apply untouched_for_each; intros ?
    | |- preserves _ (bind _ _) => apply untouched_bind; [|intros ?]
    | |- preserves _ (match ?x with _ => _ end) => destruct x
    | |- preserves _ (if ?b then _ else _) => destruct b
    end.

Section UntouchedCalls.

Variable h : Host.

Lemma untouched_run_command (argv : list string) (c : bool) :
  preserves untouched (run_command h argv c).
Proof. unfold run_command. untouched_split. Qed.

Lemma untouched_pkg_info (package_id volume : string) :
  preserves untouched (pkg_info h package_id volume).
Proof. unfold pkg_info. untouched_split; apply untouched_run_command. Qed.

Lemma untouched_package_files (package_id volume : string) :
  preserves untouched (package_files h package_id volume).
Proof.
  unfold package_files. untouched_split;
    auto using untouched_run_command, untouched_pkg_info.
Qed.

Lemma untouched_forget_package (package_id volume : string) :
  preserves untouched (forget_package h package_id volume).
Proof. unfold forget_package. untouched_split; apply untouched_run_command. Qed.

Lemma untouched_is_present (creates : string) (package_id : option string)
    (volume : string) :
  preserves untouched (is_present h creates package_id volume).
Proof.
  unfold is_present. destruct package_id; untouched_split. apply untouched_pkg_info.
Qed.

Lemma untouched_install (pkg_path target : string) :
  preserves untouched (install h pkg_path target).
Proof. unfold install. untouched_split; apply untouched_run_command. Qed.

Lemma untouched_list_all_packages (volume : string) :
  preserves untouched (list_all_packages h volume).
Proof. unfold list_all_packages. untouched_split. Qed.

Lemma untouched_uninstall (package_id volume : string) :
  preserves untouched (uninstall h package_id volume).
Proof.
  unfold uninstall, remove_path, log_removal. untouched_split;
    auto using untouched_package_files, untouched_forget_package.
Qed.

Lemma untouched_probe_phase (p : Params) : preserves untouched (probe_phase h p).
Proof.
  unfold probe_phase. untouched_split;
    auto using untouched_list_all_packages, untouched_is_present.
Qed.

Lemma untouched_action_phase (p : Params) (messages : list string) (b : bool) :
  preserves untouched (action_phase h p messages b).
Proof.
  unfold action_phase. untouched_split;
    auto using untouched_install, untouched_package_files, untouched_uninstall.
Qed.

Lemma bind_ret_value {A B} (m : M A) (x y : B) (s : State) :
  (bind m (fun _ => ret x) s).1 = inr y -> y = x.
Proof. unfold bind, ret. destruct (m s) as [[?|?] ?]; simpl; congruence. Qed.

Lemma action_phase_messages (p : Params) (messages m : list string) (b : bool)
    (s : State) :
  (action_phase h p messages b s).1 = inr m -> m = messages ++ [mode_line p].
Proof.
  unfold action_phase, mode_line. destruct (check_mode p); [by intros [= <-]|].
  destruct (should_be_present p); apply bind_ret_value.
Qed.

End UntouchedCalls.

(** X17.  What a report says beside [changed].  [message] is the empty
    string and [new_packages] is not there, in every report.  [error] is
    there exactly in a failure report, and is the exception [fail_json] is
    called with.  [messages] of the verbose part is there only in a success
    report, where it is the line about the user and the line about the mode,
    joined by a full stop and a space: a failed run reports no [messages]. *)
Theorem report_outer_keys (h : Host) (p : Params) :
  match (run_bound h p).1 with
  | ExitJson rep =>
      message (rep_result rep) = "" /\
      r_new_packages (rep_result rep) = None /\
      r_error (rep_result rep) = None /\
      forall vb, rep_verbose rep = Some vb ->
        v_messages vb = Some (Py.join ". " (initial_messages h ++ [mode_line p]))
  | FailJson e rep =>
      message (rep_result rep) = "" /\
      r_new_packages (rep_result rep) = None /\
      r_error (rep_result rep) = Some e /\
      forall vb, rep_verbose rep = Some vb -> v_messages vb = None
  | Aborted => True
  end.
Proof.
  unfold run_bound, try_block. rewrite bind_run.
  pose proof (untouched_probe_phase h p (initial_state h p)) as H1.
  destruct (probe_phase h p (initial_state h p)) as [[sig|b] s1]; simpl in H1.
  - injection H1 as Hm Hn He Hv.
    destruct sig as [e|]; simpl; [|done]. unfold report; simpl.
    repeat split; [done..|]. intros vb. case_bool_decide; [|done]. by intros [= <-].
  - rewrite bind_run.
    pose proof (untouched_action_phase h p (initial_messages h) b s1) as H2.
    pose proof (fun m => action_phase_messages h p (initial_messages h) m b s1) as Hmsg.
    destruct (action_phase h p (initial_messages h) b s1) as [[sig|m] s2]; simpl in *.
    + unfold untouched in *. rewrite H1 in H2. injection H2 as Hm Hn He Hv.
      destruct sig as [e|]; simpl; [|done]. unfold report; simpl.
      repeat split; [done..|]. intros vb. case_bool_decide; [|done]. by intros [= <-].
    + unfold untouched in *. rewrite H1 in H2. injection H2 as Hm Hn He Hv.
      rewrite (Hmsg m eq_refl). unfold report; simpl.
      repeat split; [done..|]. intros vb. case_bool_decide; [|done].
      intros [= <-]. by destruct (verbose s2).
Qed.

Section RemovalLog.

Variable h : Host.

Lemma remove_path_log (f : string) (s : State) (l : list string) :
  v_removal (verbose s) = Some l ->
  exists dels,
    history (remove_path h f s).2 = history s ++ dels /\
    v_removal (verbose (remove_path h f s).2) = Some (l ++ omap removal_line dels) /\
    v_files (verbose (remove_path h f s).2) = v_files (verbose s).
Proof.
  intros Hl.
  unfold remove_path, log_removal, shutil_rmtree, os_remove, get_history,
    modify_verbose, ret, bind. simpl.
  destruct (path_isdir h (history s) f); simpl.
  - exists [EvRmtree f].
    destruct (rmtree h (history s) f); simpl; rewrite Hl; by destruct (verbose s).
  - destruct (path_isfile h (history s) f); simpl.
    + exists [EvRemove f].
      destruct (remove h (history s) f); simpl; rewrite Hl; by destruct (verbose s).
    + exists []. simpl. by rewrite !app_nil_r.
Qed.

Lemma for_each_remove_path_log (files : list string) (s : State) (l : list string) :
  v_removal (verbose s) = Some l ->
  exists dels,
    history (for_each (remove_path h) files s).2 = history s ++ dels /\
    v_removal (verbose (for_each (remove_path h) files s).2)
      = Some (l ++ omap removal_line dels) /\
    v_files (verbose (for_each (remove_path h) files s).2) = v_files (verbose s).
Proof.
  revert s l. induction files as [|f files IH]; intros s l Hl.
  - exists []. simpl. by rewrite !app_nil_r.
  - rewrite for_each_cons. destruct (remove_path_log f s l Hl) as (d1 & E1 & L1 & F1).
    destruct (remove_path h f s) as [[sig|[]] s']; simpl in *; [by exists d1|].
    destruct (IH s' _ L1) as (d2 & E2 & L2 & F2). exists (d1 ++ d2).
    rewrite E2, E1, L2, F2, F1, omap_app, !app_assoc. done.
Qed.

Lemma forget_package_log (package_id volume : string) (s : State) :
  exists tail,
    history (forget_package h package_id volume s).2 = history s ++ tail /\
    omap removal_line tail = [] /\
    v_removal (verbose (forget_package h package_id volume s).2) = v_removal (verbose s) /\
    v_files (verbose (forget_package h package_id volume s).2) = v_files (verbose s).
Proof.
  unfold forget_package, run_command, module_run_command, gen_timestamp, get_verbose.
  run. destruct (ansible_run_command h (history s) (cmd_forget package_id volume) true).
  - run. simpl. destruct (v_commands (verbose s)); run; simpl;
      exists [EvCommand (cmd_forget package_id volume) true; EvClock];
      rewrite <- app_assoc; by destruct (verbose s).
  - exists [EvCommand (cmd_forget package_id volume) true]. done.
  - exists [EvCommand (cmd_forget package_id volume) true]. done.
Qed.

Lemma omap_removal_line_nil (evs : list Event) :
  Forall (fun e => removal_line e = None) evs -> omap removal_line evs = [].
Proof. induction 1 as [|e evs He _ IH]; simpl; [done|]. by rewrite He. Qed.

End RemovalLog.

(** X18.  The removal log of [uninstall].  Once the manifest is enumerated,
    [verbose_result['files']] is that manifest and
    [verbose_result['removal']] holds one line for each deletion
    [uninstall] started, in the order they were started, and nothing else:
    the line is written before the deletion, so a deletion that raised has
    its line too, and an entry that is neither a directory nor a file has
    none. *)
Theorem uninstall_removal_log
    (h : Host) (package_id volume : string) (s s1 : State) (files : list string) :
  package_files h package_id volume s = (inr files, s1) ->
  exists new,
    history (uninstall h package_id volume s).2 = history s ++ new /\
    v_removal (verbose (uninstall h package_id volume s).2)
      = Some (omap removal_line new) /\
    v_files (verbose (uninstall h package_id volume s).2) = Some files.
Proof.
  intros Hpf.
  assert (exists evs, history s1 = history s ++ evs /\ omap removal_line evs = [])
    as (evs & E0 & N0).
  { destruct (preserves_package_files h (fun e => removal_line e = None) eq_refl
                package_id volume eq_refl eq_refl s) as [_ (evs & E & F)].
    rewrite Hpf in E. exists evs. split; [done|]. by apply omap_removal_line_nil. }
  unfold uninstall. run. rewrite Hpf. run.
  set (s2 := {| result := _; verbose := _; history := _ |}).
  destruct (for_each_remove_path_log h files s2 []) as (dels & E1 & L1 & F1).
  { subst s2. simpl. by destruct (verbose s1). }
  destruct (for_each (remove_path h) files s2) as [[sig|[]] s3]; simpl in *.
  - exists (evs ++ dels). rewrite E1, L1, F1, omap_app, N0, app_assoc.
    subst s2. simpl. rewrite E0. split; [done|]. split; [done|]. by destruct (verbose s1).
  - destruct (forget_package_log h package_id volume s3) as (tail & E2 & N2 & L2 & F2).
    run. destruct (forget_package h package_id volume s3) as [[sig|r] s4]; simpl in *;
      (exists (evs ++ dels ++ tail);
       rewrite E2, E1, L2, L1, F2, F1, !omap_app, N0, N2, app_nil_r, !app_assoc;
       subst s2; simpl; rewrite E0; split; [done|]; split; [done|];
       by destruct (verbose s1)).
Qed.

Lemma uninstall_removal_log_witness :
  exists new,
    history (uninstall (Hosts.jdk_host true) Hosts.JDK_ID "/" Hosts.probed_state).2
      = history Hosts.probed_state ++ new /\
    v_removal (verbose (uninstall (Hosts.jdk_host true) Hosts.JDK_ID "/"
                          Hosts.probed_state).2)
      = Some (omap removal_line new) /\
    v_files (verbose (uninstall (Hosts.jdk_host true) Hosts.JDK_ID "/"
                        Hosts.probed_state).2)
      = Some Hosts.jdk_manifest.
Proof.
  assert (package_files (Hosts.jdk_host true) Hosts.JDK_ID "/" Hosts.probed_state
          = (inr Hosts.jdk_manifest, Hosts.enumerated_state)) as H
    by (vm_compute; reflexivity).
  exact (uninstall_removal_log (Hosts.jdk_host true) Hosts.JDK_ID "/"
           Hosts.probed_state Hosts.enumerated_state Hosts.jdk_manifest H).
Defined.

(** X19.  When the list-all command exits non-zero the run ends there: it
    fails with the [installer failed] error, the list-all command is the
    only thing the host has seen (no clock reading, no info query, no
    action), [changed] is false and no package list is stored.  In check
    mode too. *)
Theorem run_stops_when_listing_fails
    (h : Host) (a : Args) (cm : bool) (v : Z) (p : Params) (rc : Z) (out err : string) :
  ansible_module a cm v = Some p ->
  (state p = Absent -> is_Some (p_package_id p)) ->
  ansible_run_command h [] (cmd_pkgs (run_volume h)) false = Returned rc out err ->
  rc <> 0 ->
  exists rep,
    run_module h a cm v
      = (FailJson (listing_failed rc out err) rep,
         [EvCommand (cmd_pkgs (run_volume h)) false]) /\
    changed (rep_result rep) = false /\
    r_installed_packages (rep_result rep) = None /\
    r_error (rep_result rep) = Some (listing_failed rc out err).
Proof.
  intros Hb Hid E Hrc. rewrite (run_module_bound h a cm v p Hb).
  pose proof (pkg_path_is_never_None a cm v p Hb) as Hp.
  unfold run_bound, try_block, probe_phase, list_all_packages, module_run_command.
  destruct (pkg_path p) as [path|]; [|done].
  assert ((if state p is Absent
           then if p_package_id p is Some _ then ret () else
                  raise (PkgException [VStr "Missing package_id when state is absent"])
           else ret ()) = ret ()) as ->.
  { destruct (state p); [done|]. by destruct Hid as [? ->]. }
  destruct (state p); run; simpl; rewrite E; run; simpl;
    rewrite bool_decide_eq_false_2 by done; simpl; run;
    (eexists; split; [reflexivity|]; done).
Qed.

Lemma run_stops_when_listing_fails_witness :
  exists rep,
    run_module (Hosts.still_host 1 "") Hosts.install_jdk false 0
      = (FailJson (listing_failed 1 "" "") rep,
         [EvCommand (cmd_pkgs "/Users/me") false]).
Proof.
  destruct (run_stops_when_listing_fails (Hosts.still_host 1 "") Hosts.install_jdk
              false 0 Hosts.jdk_params 1 "" "" eq_refl) as (rep & H & _);
    [done | reflexivity | done |].
  by exists rep.
Defined.
